(** * poznote-cli: a shallow embedding of [poznote-cli.py] and its properties

    The script is glue code around one HTTP API: it reads a configuration
    from the environment, reads content from standard input or the
    clipboard, sends one or two HTTP requests and prints the outcome.  The
    embedding below follows the script function by function.

    - Python text is modelled by [string]; a character is one code point
      below 256 (Rocq's [ascii]).  The one character of the script beyond
      them, U+1F525 in the banner of burn mode, is not written as text:
      printing that banner is an event of its own, and it fails, as [print]
      does, when standard output cannot encode the character.
    - Parsed JSON and the dictionaries and lists the script builds are values
      of the type [value]; JSON numbers are integers.
    - Everything the script asks of its surroundings (environment variables,
      standard input, clipboard tools, the terminal device, the clock, the
      remote server) is a field of the record [World].
    - Effects are written in a small monad [M]: a computation reads the
      world, threads a state (the events produced so far and what is left of
      standard input) and ends by returning, by [sys.exit] or with an
      uncaught exception.  The state survives an exit, so that what was
      printed and sent before it can be observed.
    - The command line is taken as parsed: [Args] is the namespace that
      [parse_args] returns.  What argparse does on its own (help, usage
      errors) and the import guard at the top of the script come before the
      part embedded here. *)

From Stdlib Require Import String Ascii List ZArith Bool Lia DecimalString.
Import ListNotations.
Local Open Scope string_scope.
Local Open Scope Z_scope.

(** ** Python text *)

Module PyStr.

Definition code (c : ascii) : N := N_of_ascii c.

(** [str.isspace] on one character below 256. *)
Definition isspace (c : ascii) : bool :=
  let n := code c in
  ((9 <=? n) && (n <=? 13) || (28 <=? n) && (n <=? 32)
   || (n =? 133) || (n =? 160))%N.

Definition is_char (x c : ascii) : bool := Ascii.eqb x c.

(** Drop the leading characters that satisfy [p]. *)
Fixpoint lstrip_by (p : ascii -> bool) (s : string) : string :=
  match s with
  | EmptyString => EmptyString
  | String c r => if p c then lstrip_by p r else s
  end.

(** Drop the trailing characters that satisfy [p]. *)
Fixpoint rstrip_by (p : ascii -> bool) (s : string) : string :=
  match s with
  | EmptyString => EmptyString
  | String c r =>
      match rstrip_by p r with
      | EmptyString => if p c then EmptyString else String c EmptyString
      | r' => String c r'
      end
  end.

(** [s.strip()] *)
Definition strip (s : string) : string := rstrip_by isspace (lstrip_by isspace s).

(** [s.rstrip(c)] for a one-character argument. *)
Definition rstrip_char (c : ascii) (s : string) : string := rstrip_by (is_char c) s.

(** [str.lower] on one character below 256. *)
Definition lower_char (c : ascii) : ascii :=
  let n := code c in
  if ((65 <=? n) && (n <=? 90)
      || (192 <=? n) && (n <=? 222) && negb (n =? 215))%N
  then ascii_of_N (n + 32) else c.

Fixpoint lower (s : string) : string :=
  match s with
  | EmptyString => EmptyString
  | String c r => String (lower_char c) (lower r)
  end.

(** [s.split(c)] for a one-character separator: the pieces between the
    separators, in order, empty pieces included. *)
Fixpoint split (sep : ascii) (s : string) : list string :=
  match s with
  | EmptyString => [EmptyString]
  | String c r =>
      if Ascii.eqb c sep then EmptyString :: split sep r
      else match split sep r with
           | [] => [String c EmptyString]
           | p :: ps => String c p :: ps
           end
  end.

(** [sep.join(l)] *)
Fixpoint join (sep : string) (l : list string) : string :=
  match l with
  | [] => EmptyString
  | [x] => x
  | x :: r => x ++ sep ++ join sep r
  end.

(** Truth value of a string: [bool(s)]. *)
Definition truthy (s : string) : bool :=
  match s with EmptyString => false | _ => true end.

(** [str(n)] for an integer. *)
Definition of_Z (z : Z) : string := NilZero.string_of_int (Z.to_int z).

Definition nl : string := String (ascii_of_N 10) EmptyString.

(** [c * n] for a one-character string. *)
Fixpoint replicate (n : nat) (c : ascii) : string :=
  match n with O => EmptyString | S k => String c (replicate k c) end.

Definition hex_digit (n : N) : ascii :=
  ascii_of_N (if (n <? 10)%N then 48 + n else 87 + n).

(** Two lower-case hexadecimal digits of a character code. *)
Definition hex2 (c : ascii) : string :=
  String (hex_digit (code c / 16)) (String (hex_digit (code c mod 16)) EmptyString).

Fixpoint contains (x : ascii) (s : string) : bool :=
  match s with
  | EmptyString => false
  | String c r => Ascii.eqb c x || contains x r
  end.

End PyStr.

(** ** Python values

    What [response.json()] returns and what the script builds as payloads:
    [None], booleans, integers, text, lists and dictionaries.  A dictionary
    keeps its keys in insertion order, which [json.dumps] and [repr] show. *)

#[local] Set Warnings "-register-all".

Inductive value : Type :=
| JNull
| JBool (b : bool)
| JInt (z : Z)
| JStr (s : string)
| JArr (l : list value)
| JObj (kvs : list (string * value)).

Module Py.

(** [bool(v)], the test behind [if v:] and [not v]. *)
Definition truthy (v : value) : bool :=
  match v with
  | JNull => false
  | JBool b => b
  | JInt z => negb (z =? 0)
  | JStr s => PyStr.truthy s
  | JArr l => match l with [] => false | _ => true end
  | JObj kvs => match kvs with [] => false | _ => true end
  end.

(** Lookup of a key in a dictionary. *)
Fixpoint lookup {A : Type} (k : string) (kvs : list (string * A)) : option A :=
  match kvs with
  | [] => None
  | (k', v) :: r => if String.eqb k k' then Some v else lookup k r
  end.

(** [d[k] = v]: the key keeps its place when it is there already and is
    added last otherwise. *)
Fixpoint set_item {A : Type} (k : string) (v : A) (kvs : list (string * A))
  : list (string * A) :=
  match kvs with
  | [] => [(k, v)]
  | (k', v') :: r =>
      if String.eqb k k' then (k', v) :: r else (k', v') :: set_item k v r
  end.

(** [repr(s)] for text: single quotes unless the text has a single quote and
    no double quote; backslash, the quote, tab, newline and carriage return
    escaped; other unprintable characters as [\xNN]. *)
Definition printable (c : ascii) : bool :=
  let n := PyStr.code c in
  ((32 <=? n) && (n <=? 126) || (161 <=? n) && negb (n =? 173))%N.

Definition backslash : ascii := ascii_of_N 92.

Definition repr_char (quote c : ascii) : string :=
  let n := PyStr.code c in
  if Ascii.eqb c quote || Ascii.eqb c backslash
  then String backslash (String c EmptyString)
  else if (n =? 9)%N then String backslash "t"
  else if (n =? 10)%N then String backslash "n"
  else if (n =? 13)%N then String backslash "r"
  else if printable c then String c EmptyString
  else String backslash ("x" ++ PyStr.hex2 c).

Fixpoint repr_chars (quote : ascii) (s : string) : string :=
  match s with
  | EmptyString => EmptyString
  | String c r => repr_char quote c ++ repr_chars quote r
  end.

Definition squote : ascii := ascii_of_N 39.
Definition dquote : ascii := ascii_of_N 34.

Definition repr_str (s : string) : string :=
  let quote :=
    if PyStr.contains squote s && negb (PyStr.contains dquote s)
    then dquote else squote in
  String quote (repr_chars quote s ++ String quote EmptyString).

(** [repr(v)] *)
Fixpoint repr (v : value) : string :=
  match v with
  | JNull => "None"
  | JBool true => "True"
  | JBool false => "False"
  | JInt z => PyStr.of_Z z
  | JStr s => repr_str s
  | JArr l => "[" ++ PyStr.join ", " (map repr l) ++ "]"
  | JObj kvs =>
      "{" ++ PyStr.join ", "
               (map (fun kv => let '(k, x) := kv in repr_str k ++ ": " ++ repr x) kvs)
          ++ "}"
  end.

(** [str(v)], which is also what an f-string field [{v}] shows. *)
Definition str (v : value) : string :=
  match v with
  | JStr s => s
  | _ => repr v
  end.

(** [json.dumps] with its defaults: [", "] and [": "] as separators and every
    character outside the printable ASCII range escaped. *)
Definition dumps_char (c : ascii) : string :=
  let n := PyStr.code c in
  if Ascii.eqb c dquote || Ascii.eqb c backslash
  then String backslash (String c EmptyString)
  else if (n =? 10)%N then String backslash "n"
  else if (n =? 13)%N then String backslash "r"
  else if (n =? 9)%N then String backslash "t"
  else if (n =? 12)%N then String backslash "f"
  else if (n =? 8)%N then String backslash "b"
  else if (32 <=? n)%N && (n <=? 126)%N then String c EmptyString
  else String backslash ("u00" ++ PyStr.hex2 c).

Fixpoint dumps_chars (s : string) : string :=
  match s with
  | EmptyString => EmptyString
  | String c r => dumps_char c ++ dumps_chars r
  end.

Definition dumps_str (s : string) : string :=
  String dquote (dumps_chars s ++ String dquote EmptyString).

Fixpoint dumps (v : value) : string :=
  match v with
  | JNull => "null"
  | JBool true => "true"
  | JBool false => "false"
  | JInt z => PyStr.of_Z z
  | JStr s => dumps_str s
  | JArr l => "[" ++ PyStr.join ", " (map dumps l) ++ "]"
  | JObj kvs =>
      "{" ++ PyStr.join ", "
               (map (fun kv => let '(k, x) := kv in dumps_str k ++ ": " ++ dumps x) kvs)
          ++ "}"
  end.

End Py.

(** ** The world and the events of a run *)

(** The arguments of [requests.request]. *)
Record http_request : Type := {
  rq_method : string;
  rq_url : string;
  rq_json : option value;
  rq_params : option (list (string * string));
  rq_headers : list (string * string);
  rq_auth : string * string;
  rq_timeout : Z
}.

(** What the call and [raise_for_status] come to: an exception of the class
    [RequestException] (no connection, timeout, a status that is not a
    success, a body that is no JSON), or a response whose content is empty
    ([None]) or parses to a value. *)
Inductive http_result : Type :=
| RequestException (msg : string)
| Response (body : option value).

(** The terminal device [/dev/tty]. *)
Inductive tty_device : Type :=
| TtyReadable
| TtyUnopenable
| TtyReadFails.

Inductive event : Type :=
| Stdout (text : string)
| Http (rq : http_request)
| ClipCopy (argv : list string) (text : string)
| TtyRead
| StdinLine (line : string)
| Banner (workspace : string).

Record World : Type := {
  os_environ : list (string * string);
  (** [Path("~/.poznote.conf").expanduser()] *)
  config_path : string;
  (** the keys and values of that file as python-dotenv reads them, [None]
      when the file does not exist; a key without [=] has no value *)
  dotenv_file : option (list (string * option string));
  stdin_isatty : bool;
  (** all that standard input delivers until its end *)
  stdin_text : string;
  (** [shutil.which(tool)] finds the tool *)
  which : string -> bool;
  (** the decoded output of the paste tools, [None] when running one raises *)
  xclip_out : option string;
  wl_paste_out : option string;
  dev_tty : tty_device;
  (** [sys.stdout] can encode the character U+1F525 of the banner of burn
      mode: so it is under UTF-8, and not under ASCII or Latin-1 *)
  stdout_takes_fire : bool;
  (** [int(time.time())] *)
  clock : Z;
  (** [os.path.basename(__file__)] *)
  script_name : string;
  (** the remote service: its answer to a request, given the requests that
      came before *)
  server : list http_request -> http_request -> http_result
}.

Record State : Type := {
  trace : list event;
  stdin_rest : string
}.

(** How a computation ends: with a value, by [sys.exit(code)], or with an
    exception that nothing catches (a traceback and exit status 1). *)
Inductive result (A : Type) : Type :=
| Ret (a : A)
| Exit (code : Z)
| Uncaught (exn : string).

Arguments Ret {A} a.
Arguments Exit {A} code.
Arguments Uncaught {A} exn.

Definition M (A : Type) : Type := World -> State -> result A * State.

Definition ret {A : Type} (a : A) : M A := fun _ st => (Ret a, st).

Definition bind {A B : Type} (m : M A) (k : A -> M B) : M B :=
  fun w st =>
    match m w st with
    | (Ret a, st') => k a w st'
    | (Exit c, st') => (Exit c, st')
    | (Uncaught e, st') => (Uncaught e, st')
    end.

Declare Scope py_scope.
Delimit Scope py_scope with py.
Notation "x <- m ;; k" := (bind m (fun x => k))
  (at level 61, m at next level, right associativity) : py_scope.
Notation "m ;; k" := (bind m (fun _ => k))
  (at level 61, right associativity) : py_scope.
Local Open Scope py_scope.

Definition sys_exit {A : Type} (code : Z) : M A := fun _ st => (Exit code, st).

Definition raise {A : Type} (exn : string) : M A := fun _ st => (Uncaught exn, st).

Definition ask : M World := fun w st => (Ret w, st).

Definition get_state : M State := fun _ st => (Ret st, st).

Definition emit (e : event) : M unit :=
  fun _ st => (Ret tt, {| trace := app (trace st) [e]; stdin_rest := stdin_rest st |}).

(** [print(s, end=..., flush=True)] with an empty [end]. *)
Definition write (s : string) : M unit := emit (Stdout s).

(** [print(s)] *)
Definition print (s : string) : M unit := write (s ++ PyStr.nl).

(** The requests sent so far, oldest first. *)
Fixpoint requests (tr : list event) : list http_request :=
  match tr with
  | [] => []
  | Http rq :: r => rq :: requests r
  | _ :: r => requests r
  end.

(** The texts written to standard output so far, oldest first.  The banner
    of burn mode is no text of code points below 256 and is left to its
    event. *)
Fixpoint output (tr : list event) : list string :=
  match tr with
  | [] => []
  | Stdout s :: r => s :: output r
  | _ :: r => output r
  end.

(** [requests.request(...)] followed by [raise_for_status()]. *)
Definition send (rq : http_request) : M http_result :=
  w <- ask ;;
  st <- get_state ;;
  emit (Http rq) ;;
  ret (server w (requests (trace st)) rq).

(** [sys.stdin.read()] *)
Definition stdin_read : M string :=
  fun _ st => (Ret (stdin_rest st), {| trace := trace st; stdin_rest := EmptyString |}).

(** The first line of a text, its newline included, and what follows. *)
Fixpoint split_line (s : string) : string * string :=
  match s with
  | EmptyString => (EmptyString, EmptyString)
  | String c r =>
      if Ascii.eqb c (ascii_of_N 10) then (String c EmptyString, r)
      else let '(l, rest) := split_line r in (String c l, rest)
  end.

(** [sys.stdin.readline()] *)
Definition stdin_readline : M string :=
  fun _ st =>
    let '(line, rest) := split_line (stdin_rest st) in
    (Ret line, {| trace := app (trace st) [StdinLine line]; stdin_rest := rest |}).

(** [input(prompt)]: the prompt, then one line of standard input without
    its newline; [EOFError] when the input is at its end. *)
Definition input (prompt : string) : M string :=
  write prompt ;;
  line <- stdin_readline ;;
  match line with
  | EmptyString => raise "EOFError"
  | _ => ret (PyStr.rstrip_by (PyStr.is_char (ascii_of_N 10)) line)
  end.

(** A run from the start of the process. *)
Definition init (w : World) : State :=
  {| trace := []; stdin_rest := stdin_text w |}.

Definition run {A : Type} (m : M A) (w : World) : result A * State := m w (init w).

(** The exit status of the process when the script's body ends as [r]. *)
Definition exit_status {A : Type} (r : result A) : Z :=
  match r with
  | Ret _ => 0
  | Exit c => c
  | Uncaught _ => 1
  end.

(** ** The script *)

(** [os.getenv(key)] once [load_dotenv] has run: a variable of the process
    environment wins, and a key of the file that has a value is added. *)
Definition getenv (w : World) (key : string) : option string :=
  match Py.lookup key (os_environ w) with
  | Some v => Some v
  | None =>
      match dotenv_file w with
      | Some kvs =>
          match Py.lookup key kvs with
          | Some (Some v) => Some v
          | _ => None
          end
      | None => None
      end
  end.

(** [os.getenv(key, default)] *)
Definition getenv_default (w : World) (key default : string) : string :=
  match getenv w key with Some v => v | None => default end.

(** Truth value of a text that may be [None]. *)
Definition opt_truthy (o : option string) : bool :=
  match o with Some s => PyStr.truthy s | None => false end.

(** The tuple [get_config] returns, by the names of its locals. *)
Record Config : Type := {
  url : string;
  user : string;
  password : string;
  user_id : string;
  workspace : string;
  adv_feat : bool
}.

(** 2. Clipboard integration *)

Definition copy_to_clipboard (text : string) : M unit :=
  w <- ask ;;
  if which w "xclip" then emit (ClipCopy ["xclip"; "-selection"; "clipboard"] text)
  else if which w "wl-copy" then emit (ClipCopy ["wl-copy"] text)
  else ret tt.

Definition get_clipboard_text : M (option string) :=
  w <- ask ;;
  if which w "xclip" then
    match xclip_out w with
    | Some out => ret (Some (PyStr.strip out))
    | None => ret None
    end
  else if which w "wl-paste" then
    match wl_paste_out w with
    | Some out => ret (Some (PyStr.strip out))
    | None => ret None
    end
  else ret None.

(** 3. Config manager *)

Definition get_config : M Config :=
  w <- ask ;;
  let url := getenv w "POZNOTE_URL" in
  let user := getenv w "POZNOTE_USER" in
  let password := getenv w "POZNOTE_PASS" in
  let user_id := getenv_default w "POZNOTE_USER_ID" "1" in
  let workspace := getenv_default w "POZNOTE_WORKSPACE" "Poznote" in
  let adv_feat :=
    String.eqb (PyStr.lower (getenv_default w "POZNOTE_ADVANCED_FEATURES" "false")) "true" in
  if negb (forallb opt_truthy [url; user; password]) then
    print ("Error: Credentials missing in " ++ config_path w) ;;
    sys_exit 12
  else
    match url, user, password with
    | Some url, Some user, Some password =>
        ret {| url := PyStr.rstrip_char "/" url; user := user; password := password;
               user_id := user_id; workspace := workspace; adv_feat := adv_feat |}
    | _, _, _ => raise "AttributeError"
    end.

(** 4. Debug curl helper *)

(** The command line that [print_debug_curl] assembles in [cmd] and joins. *)
Definition curl_command (method url : string) (headers : list (string * string))
    (auth : string * string) (payload : option value) : string :=
  let auth_str := fst auth ++ ":" ++ snd auth in
  let cmd := ["curl -X " ++ method ++ " '" ++ url ++ "'"; "-u '" ++ auth_str ++ "'"] in
  let cmd := app cmd (map (fun kv => "-H '" ++ fst kv ++ ": " ++ snd kv ++ "'") headers) in
  let cmd :=
    match payload with
    | Some p => if Py.truthy p then app cmd ["-d '" ++ Py.dumps p ++ "'"] else cmd
    | None => cmd
    end in
  PyStr.join " " cmd.

Definition print_debug_curl (method url : string) (headers : list (string * string))
    (auth : string * string) (payload : option value) : M unit :=
  print (PyStr.nl ++ "--- DEBUG: CURL COMMAND ---") ;;
  print (curl_command method url headers auth payload) ;;
  print ("---------------------------" ++ PyStr.nl).

(** 5. Helper for API requests *)

(** The arguments [poznote_request] passes to [requests.request]. *)
Definition build_request (cfg : Config) (method endpoint : string)
    (payload : option value) (params : option (list (string * string))) : http_request :=
  {| rq_method := method;
     rq_url := url cfg ++ endpoint;
     rq_json := payload;
     rq_params := params;
     rq_headers := [("X-User-ID", user_id cfg); ("Content-Type", "application/json")];
     rq_auth := (user cfg, password cfg);
     rq_timeout := 10 |}.

Definition poznote_request (method endpoint : string) (payload : option value)
    (params : option (list (string * string))) (debug : bool) : M value :=
  cfg <- get_config ;;
  let rq := build_request cfg method endpoint payload params in
  (if debug then
     print_debug_curl method (rq_url rq) (rq_headers rq) (rq_auth rq) payload
   else ret tt) ;;
  response <- send rq ;;
  match response with
  | Response (Some body) => ret body
  | Response None => ret (JObj [("success", JBool true)])
  | RequestException e =>
      print ("Error: API Request failed: " ++ e) ;;
      sys_exit 13
  end.

(** [d.get(key, default)]: [AttributeError] when [d] is no dictionary. *)
Definition get (d : value) (key : string) (default : value) : M value :=
  match d with
  | JObj kvs => ret (match Py.lookup key kvs with Some v => v | None => default end)
  | _ => raise "AttributeError"
  end.

(** [v[0]] *)
Definition item0 (v : value) : M value :=
  match v with
  | JArr (x :: _) => ret x
  | JArr [] => raise "IndexError"
  | JStr (String c _) => ret (JStr (String c EmptyString))
  | JStr EmptyString => raise "IndexError"
  | JObj _ => raise "KeyError"
  | _ => raise "TypeError"
  end.

(** The address of a note in the browser. *)
Definition note_url (cfg : Config) (note_id : value) : string :=
  url cfg ++ "/index.php?workspace=" ++ workspace cfg ++ "&note=" ++ Py.str note_id.

(** 6. Read action *)

Definition list_last_note (debug : bool) : M unit :=
  cfg <- get_config ;;
  data <- poznote_request "GET" "/api/v1/notes" None
            (Some [("workspace", workspace cfg)]) debug ;;
  notes <- get data "notes" (JArr []) ;;
  if negb (Py.truthy notes) then
    print ("No notes found in workspace: " ++ workspace cfg)
  else
    first <- item0 notes ;;
    last_id <- get first "id" JNull ;;
    detail_data <- poznote_request "GET" ("/api/v1/notes/" ++ Py.str last_id) None None debug ;;
    note <- get detail_data "note" (JObj []) ;;
    print ("--- Latest Note in " ++ workspace cfg ++ " [ID: " ++ Py.str last_id ++ "] ---") ;;
    heading <- get note "heading" (JStr "No Title") ;;
    print (Py.str heading) ;;
    content <- get note "content" (JStr EmptyString) ;;
    print (Py.str content) ;;
    print (PyStr.replicate 40 "-") ;;
    let full_url := note_url cfg last_id in
    print ("URL: " ++ full_url) ;;
    copy_to_clipboard full_url.

(** 6b. Search action *)

Definition search_notes (query : string) (debug : bool) : M unit :=
  cfg <- get_config ;;
  data <- poznote_request "GET" "/api/v1/notes" None
            (Some [("workspace", workspace cfg); ("search", query)]) debug ;;
  notes <- get data "notes" (JArr []) ;;
  if negb (Py.truthy notes) then
    print ("No notes found matching '" ++ query ++ "' in workspace: " ++ workspace cfg)
  else
    first <- item0 notes ;;
    first_id <- get first "id" JNull ;;
    detail_data <- poznote_request "GET" ("/api/v1/notes/" ++ Py.str first_id) None None debug ;;
    note <- get detail_data "note" (JObj []) ;;
    print ("First match for '" ++ query ++ "' in " ++ workspace cfg
           ++ " [ID: " ++ Py.str first_id ++ "]") ;;
    heading <- get note "heading" (JStr "No Title") ;;
    print (Py.str heading) ;;
    content <- get note "content" (JStr EmptyString) ;;
    print (Py.str content) ;;
    print (PyStr.replicate 40 "-") ;;
    let full_url := note_url cfg first_id in
    print ("View in browser: " ++ full_url) ;;
    copy_to_clipboard full_url.

(** 7. Delete action *)

Definition delete_note (note_id : value) (silent debug : bool) : M unit :=
  poznote_request "DELETE" ("/api/v1/notes/" ++ Py.str note_id) None None debug ;;
  if negb silent then print ("Success: Note " ++ Py.str note_id ++ " deleted.")
  else ret tt.

(** 8. Update action *)

Definition update_note (note_id : value) (debug : bool) : M unit :=
  w <- ask ;;
  if stdin_isatty w then
    print "Error: No piped input detected for update." ;;
    sys_exit 11
  else
    raw <- stdin_read ;;
    let input_data := PyStr.strip raw in
    if negb (PyStr.truthy input_data) then ret tt
    else
      let payload := JObj [("content", JStr input_data)] in
      poznote_request "PATCH" ("/api/v1/notes/" ++ Py.str note_id) (Some payload) None debug ;;
      print ("Success: Note " ++ Py.str note_id ++ " updated via PATCH.").

(** 9. Post action *)

(** The confirmation read of the burn flow: a line of [/dev/tty], and the
    prompt of [input] when the device cannot be opened or read. *)
Definition confirm_burn : M unit :=
  w <- ask ;;
  match dev_tty w with
  | TtyReadable =>
      write "Press [Enter] to delete..." ;;
      emit TtyRead
  | TtyReadFails =>
      write "Press [Enter] to delete..." ;;
      input "Press [Enter] to delete..." ;;
      ret tt
  | TtyUnopenable =>
      input "Press [Enter] to delete..." ;;
      ret tt
  end.

(** The banner of burn mode, line 224: a line feed, the character U+1F525
    and [BURN MODE: Note will be deleted from <workspace> when you proceed.]
    The [print] stands before the [try] of the confirmation: when standard
    output cannot encode the character it raises [UnicodeEncodeError], which
    nothing catches, and nothing is written. *)
Definition print_burn_banner (workspace : string) : M unit :=
  w <- ask ;;
  if stdout_takes_fire w then emit (Banner workspace)
  else raise "UnicodeEncodeError".

(** The content of the new note: the clipboard, or all of standard input
    trimmed. *)
Definition read_content (from_clipboard : bool) : M (option string) :=
  if from_clipboard then get_clipboard_text
  else
    w <- ask ;;
    if stdin_isatty w then
      print "Error: No piped input. Use -c to post from clipboard." ;;
      sys_exit 11
    else
      raw <- stdin_read ;;
      ret (Some (PyStr.strip raw)).

(** The dictionary sent by the post action. *)
Definition build_payload (now : Z) (input_data workspace : string) (tags : option string)
  : list (string * value) :=
  let payload :=
    [("heading", JStr ("cli-" ++ PyStr.of_Z now));
     ("content", JStr input_data);
     ("workspace", JStr workspace);
     ("type", JStr "markdown")] in
  if opt_truthy tags then
    match tags with
    | Some t => Py.set_item "tags" (JArr (map JStr (PyStr.split "," t))) payload
    | None => payload
    end
  else payload.

Definition post_to_poznote (tags : option string)
    (from_clipboard show_delete show_update burn debug : bool) : M unit :=
  cfg <- get_config ;;
  content <- read_content from_clipboard ;;
  if negb (opt_truthy content) then sys_exit 0
  else
    match content with
    | None => sys_exit 0
    | Some input_data =>
        w <- ask ;;
        let payload := build_payload (clock w) input_data (workspace cfg) tags in
        data <- poznote_request "POST" "/api/v1/notes" (Some (JObj payload)) None debug ;;
        note <- get data "note" (JObj []) ;;
        note_id <- get note "id" JNull ;;
        let full_url := note_url cfg note_id in
        print ("Success: " ++ full_url) ;;
        copy_to_clipboard full_url ;;
        (if show_delete && Py.truthy note_id then
           print ("To delete this note run: " ++ script_name w ++ " -D " ++ Py.str note_id)
         else ret tt) ;;
        (if show_update && Py.truthy note_id then
           print ("To update this note run: [command] | " ++ script_name w
                  ++ " -U " ++ Py.str note_id)
         else ret tt) ;;
        if burn && Py.truthy note_id then
          print_burn_banner (workspace cfg) ;;
          confirm_burn ;;
          delete_note note_id false debug
        else ret tt
    end.

(** 10. CLI entry point *)

(** The namespace [parser.parse_args()] returns. *)
Record Args : Type := {
  d : bool;
  burn : bool;
  u : bool;
  tags : option string;
  clipboard : bool;
  debug : bool;
  delete : option string;
  update : option string;
  last : bool;
  search : option string
}.

(** The value of an option that was given. *)
Definition given (o : option string) : string :=
  match o with Some s => s | None => EmptyString end.

(** [any([args.last, args.search, args.delete, args.update])] *)
Definition any_gated (args : Args) : bool :=
  existsb (fun b => b)
    [last args; opt_truthy (search args); opt_truthy (delete args); opt_truthy (update args)].

Definition main (args : Args) : M unit :=
  cfg <- get_config ;;
  if any_gated args && negb (adv_feat cfg) then
    print "Error: Advanced features are disabled in ~/.poznote.conf" ;;
    sys_exit 12
  else if last args then list_last_note (debug args)
  else if opt_truthy (search args) then search_notes (given (search args)) (debug args)
  else if opt_truthy (delete args) then delete_note (JStr (given (delete args))) false (debug args)
  else if opt_truthy (update args) then update_note (JStr (given (update args))) (debug args)
  else post_to_poznote (tags args) (clipboard args) (d args) (u args) (burn args) (debug args).

(** ** What the specification says of tags

    The tags of a post as the specification words them: the text split at
    commas, each piece trimmed, the empty pieces left out. *)
Definition spec_tags (t : string) : list string :=
  filter PyStr.truthy (map PyStr.strip (PyStr.split "," t)).

(** ** Observations on a finished run *)


Definition is_method (m : string) (rq : http_request) : bool := String.eqb (rq_method rq) m.

(** The confirmation read of the burn flow as an event. *)
Definition is_confirmation (e : event) : bool :=
  match e with
  | TtyRead => true
  | StdinLine _ => true
  | _ => false
  end.

(** The events of a run that are not output. *)
Fixpoint actions (tr : list event) : list event :=
  match tr with
  | [] => []
  | Stdout _ :: r => actions r
  | e :: r => e :: actions r
  end.

(** An option that is absent or has the empty text as its value. *)
Definition missing (o : option string) : Prop := o = None \/ o = Some EmptyString.

(** A state with more events at the end of its trace. *)
Definition add (st : State) (evs : list event) : State :=
  {| trace := trace st ++ evs; stdin_rest := stdin_rest st |}.

(** What the debug flag prints ahead of a request. *)
Definition echo (debug : bool) (rq : http_request) : list event :=
  if debug then
    [Stdout ((PyStr.nl ++ "--- DEBUG: CURL COMMAND ---") ++ PyStr.nl);
     Stdout (curl_command (rq_method rq) (rq_url rq) (rq_headers rq) (rq_auth rq) (rq_json rq)
             ++ PyStr.nl);
     Stdout (("---------------------------" ++ PyStr.nl) ++ PyStr.nl)]
  else [].

(** What a call of [poznote_request] comes to, by the answer of the server. *)
Definition answer (w : World) (st : State) (debug : bool) (rq : http_request)
  : result value * State :=
  match server w (requests (trace st)) rq with
  | Response (Some body) => (Ret body, add st (echo debug rq ++ [Http rq]))
  | Response None =>
      (Ret (JObj [("success", JBool true)]), add st (echo debug rq ++ [Http rq]))
  | RequestException e =>
      (Exit 13,
       add st (echo debug rq
               ++ [Http rq; Stdout (("Error: API Request failed: " ++ e) ++ PyStr.nl)]))
  end.

(** A computation only adds to the trace. *)
Definition grows {A : Type} (m : M A) : Prop :=
  forall w st, exists evs, trace (snd (m w st)) = (trace st ++ evs)%list.

(** On the world [w], a computation that exits does so with one of the
    codes [allowed]. *)
Definition exits_within {A : Type} (allowed : list Z) (w : World) (m : M A) : Prop :=
  forall st c, fst (m w st) = Exit c -> In c allowed.

(** The action flags of an invocation that updates: [-U] with an id, and
    none of the flags that come before it in the dispatch. *)
Definition updates (args : Args) : bool :=
  negb (last args) && negb (opt_truthy (search args)) && negb (opt_truthy (delete args))
  && opt_truthy (update args).

(** An option with the empty text as its value read as an absent one. *)
Definition absent_if_empty (o : option string) : option string :=
  if opt_truthy o then o else None.

(** The invocation with the gated options that have an empty value left
    out. *)
Definition without_empty_values (args : Args) : Args :=
  {| d := d args; burn := burn args; u := u args; tags := tags args;
     clipboard := clipboard args; debug := debug args;
     delete := absent_if_empty (delete args);
     update := absent_if_empty (update args);
     last := last args;
     search := absent_if_empty (search args) |}.

(** The requests and the confirmation reads of a run, in their order. *)
Fixpoint milestones (tr : list event) : list event :=
  match tr with
  | [] => []
  | Http rq :: r => Http rq :: milestones r
  | e :: r => if is_confirmation e then e :: milestones r else milestones r
  end.

(** A step that returns and neither sends a request nor reads a
    confirmation. *)
Definition quiet (m : M unit) : Prop :=
  forall w st, exists evs, m w st = (Ret tt, add st evs) /\ milestones evs = [].

(** The burn flow gets its confirmation: the terminal device can be read,
    or the content came from the clipboard and standard input has a line
    left for the prompt that stands in for the device. *)
Definition confirmable (w : World) (from_clipboard : bool) : Prop :=
  dev_tty w = TtyReadable \/ (from_clipboard = true /\ stdin_text w <> EmptyString).

(** Two states that differ in what was printed only. *)
Definition same_actions (st1 st2 : State) : Prop :=
  actions (trace st1) = actions (trace st2) /\ stdin_rest st1 = stdin_rest st2.

(** Two computations that, from states that differ in what was printed
    only, end alike and in states that differ in what was printed only. *)
Definition alike {A : Type} (m1 m2 : M A) : Prop :=
  forall w st1 st2,
    same_actions st1 st2 ->
    fst (m1 w st1) = fst (m2 w st2) /\ same_actions (snd (m1 w st1)) (snd (m2 w st2)).

(** The three settings without which nothing runs are all there. *)
Definition configured (w : World) : bool :=
  forallb opt_truthy
    [getenv w "POZNOTE_URL"; getenv w "POZNOTE_USER"; getenv w "POZNOTE_PASS"].

(** The configuration loads, and loads as [cfg]. *)
Definition loads (w : World) (cfg : Config) : Prop := fst (run get_config w) = Ret cfg.





(** The request that deletes one note. *)
Definition delete_request (cfg : Config) (note_id : value) : http_request :=
  build_request cfg "DELETE" ("/api/v1/notes/" ++ Py.str note_id) None None.

(** The request of the post action. *)
Definition post_request (w : World) (cfg : Config) (input_data : string)
    (tags : option string) : http_request :=
  build_request cfg "POST" "/api/v1/notes"
    (Some (JObj (build_payload (clock w) input_data (workspace cfg) tags))) None.

(** ** Sample worlds and invocations *)

Module Sample.

(** A service that holds the notes 42 and 7 and gives every new note the
    identifier [new_id]. *)
Definition service (new_id : value) (history : list http_request) (rq : http_request)
  : http_result :=
  if is_method "POST" rq then Response (Some (JObj [("note", JObj [("id", new_id)])]))
  else if is_method "DELETE" rq then Response None
  else if is_method "PATCH" rq then Response None
  else if String.eqb (rq_url rq) "https://notes.example/api/v1/notes" then
    Response (Some (JObj [("notes", JArr [JObj [("id", JInt 42)]; JObj [("id", JInt 7)]])]))
  else
    Response (Some (JObj [("note", JObj [("id", JInt 42); ("heading", JStr "groceries");
                                         ("content", JStr "milk")])])).

(** A service that finds no note. *)
Definition empty_service (history : list http_request) (rq : http_request) : http_result :=
  Response (Some (JObj [("notes", JArr [])])).

(** A service that creates notes and fails to delete them. *)
Definition stubborn_service (history : list http_request) (rq : http_request) : http_result :=
  if is_method "DELETE" rq then RequestException "500 Server Error"
  else service (JInt 99) history rq.

Definition conf (advanced : string) : list (string * option string) :=
  [("POZNOTE_URL", Some "https://notes.example/");
   ("POZNOTE_USER", Some "alice");
   ("POZNOTE_PASS", Some "secret");
   ("POZNOTE_ADVANCED_FEATURES", Some advanced)].

Definition world (advanced : string) (isatty : bool) (stdin : string) (tty : tty_device)
    (srv : list http_request -> http_request -> http_result) : World :=
  {| os_environ := [("HOME", "/home/alice")];
     config_path := "/home/alice/.poznote.conf";
     dotenv_file := Some (conf advanced);
     stdin_isatty := isatty;
     stdin_text := stdin;
     which := fun tool => String.eqb tool "xclip";
     xclip_out := Some "from the clipboard";
     wl_paste_out := None;
     dev_tty := tty;
     stdout_takes_fire := true;
     clock := 1700000000;
     script_name := "poznote-cli.py";
     server := srv |}.

(** The configuration file of [world]. *)
Definition config (advanced : bool) : Config :=
  {| url := "https://notes.example"; user := "alice"; password := "secret";
     user_id := "1"; workspace := "Poznote"; adv_feat := advanced |}.

(** Piped input, a terminal, advanced features on. *)
Definition piped : World :=
  world "true" false ("hello world" ++ PyStr.nl) TtyReadable (service (JInt 99)).

(** The same with advanced features off. *)
Definition basic : World :=
  world "false" false ("hello world" ++ PyStr.nl) TtyReadable (service (JInt 99)).

(** Nothing is piped: standard input is the terminal. *)
Definition interactive : World :=
  world "true" true EmptyString TtyReadable (service (JInt 99)).

(** Piped input that is blank. *)
Definition blank : World :=
  world "true" false ("  " ++ PyStr.nl) TtyReadable (service (JInt 99)).

(** Piped input and no terminal device. *)
Definition detached : World :=
  world "true" false ("hello world" ++ PyStr.nl) TtyUnopenable (service (JInt 99)).

(** The service numbers the new note 0. *)
Definition zeroth : World :=
  world "true" false ("hello world" ++ PyStr.nl) TtyReadable (service (JInt 0)).

(** The service finds nothing. *)
Definition barren : World :=
  world "true" false ("hello world" ++ PyStr.nl) TtyReadable empty_service.

(** The service refuses to delete. *)
Definition stubborn : World :=
  world "true" false ("hello world" ++ PyStr.nl) TtyReadable stubborn_service.

(** No configuration file, and a URL and a user in the environment: the
    password is missing. *)
Definition unconfigured : World :=
  {| os_environ := [("POZNOTE_URL", "https://notes.example/"); ("POZNOTE_USER", "alice")];
     config_path := "/home/alice/.poznote.conf";
     dotenv_file := None;
     stdin_isatty := false;
     stdin_text := "hello world" ++ PyStr.nl;
     which := fun tool => false;
     xclip_out := None;
     wl_paste_out := None;
     dev_tty := TtyReadable;
     stdout_takes_fire := true;
     clock := 1700000000;
     script_name := "poznote-cli.py";
     server := service (JInt 99) |}.

(** An invocation without any flag. *)
Definition plain : Args :=
  {| d := false; burn := false; u := false; tags := None; clipboard := false;
     debug := false; delete := None; update := None; last := false; search := None |}.


Definition with_burn : Args :=
  {| d := false; burn := true; u := false; tags := None; clipboard := false;
     debug := false; delete := None; update := None; last := false; search := None |}.

Definition with_last : Args :=
  {| d := false; burn := false; u := false; tags := None; clipboard := false;
     debug := false; delete := None; update := None; last := true; search := None |}.

Definition with_search (q : string) : Args :=
  {| d := false; burn := false; u := false; tags := None; clipboard := false;
     debug := false; delete := None; update := None; last := false; search := Some q |}.

Definition with_delete (i : string) : Args :=
  {| d := false; burn := false; u := false; tags := None; clipboard := false;
     debug := false; delete := Some i; update := None; last := false; search := None |}.

Definition with_update (i : string) : Args :=
  {| d := false; burn := false; u := false; tags := None; clipboard := false;
     debug := false; delete := None; update := Some i; last := false; search := None |}.

End Sample.

(** The same invocation with the debug flag set as given. *)
Definition set_debug (b : bool) (args : Args) : Args :=
  {| d := d args; burn := burn args; u := u args; tags := tags args;
     clipboard := clipboard args; debug := b; delete := delete args;
     update := update args; last := last args; search := search args |}.

(** ** More invocations and worlds *)

Module Cases.

(** Content from the clipboard. *)
Definition from_clipboard : Args :=
  {| d := false; burn := false; u := false; tags := None; clipboard := true;
     debug := false; delete := None; update := None; last := false; search := None |}.





(** A service that fails whatever it is asked. *)
Definition down (history : list http_request) (rq : http_request) : http_result :=
  RequestException "503 Service Unavailable".

(** Piped input and a service that is down. *)
Definition offline : World :=
  Sample.world "true" false ("hello world" ++ PyStr.nl) TtyReadable down.



End Cases.

(** ** More observations *)

(** A computation that sends nothing and does not end with status 13. *)
Definition silent {A : Type} (m : M A) : Prop :=
  forall w st,
    requests (trace (snd (m w st))) = requests (trace st) /\ fst (m w st) <> Exit 13.

(** A computation that sends [n] requests at most. *)
Definition sends_at_most {A : Type} (n : nat) (m : M A) : Prop :=
  forall w st,
    (length (requests (trace (snd (m w st)))) <= length (requests (trace st)) + n)%nat.

(** A request as the script makes them under the configuration [cfg]: one
    of the four methods, an address below the notes of the configured
    server, the configured user and password, the two headers and the
    timeout of ten seconds. *)
Definition by_the_book (cfg : Config) (rq : http_request) : Prop :=
  In (rq_method rq) ["GET"; "POST"; "PATCH"; "DELETE"]
  /\ (exists rest, rq_url rq = url cfg ++ "/api/v1/notes" ++ rest)
  /\ rq_auth rq = (user cfg, password cfg)
  /\ rq_headers rq = [("X-User-ID", user_id cfg); ("Content-Type", "application/json")]
  /\ rq_timeout rq = 10.

(** On the world [w], a computation keeps the requests of the trace within
    [P]. *)
Definition keeps_requests {A : Type} (P : http_request -> Prop) (w : World) (m : M A) : Prop :=
  forall st, Forall P (requests (trace st)) -> Forall P (requests (trace (snd (m w st)))).







(** [d.get(key, default)] on a dictionary, as a value. *)
Definition field (kvs : list (string * value)) (key : string) (default : value) : value :=
  match Py.lookup key kvs with
  | Some v => v
  | None => default
  end.

(** What copying a text to the clipboard adds to the trace. *)
Definition copy_events (w : World) (text : string) : list event :=
  trace (snd (copy_to_clipboard text w {| trace := []; stdin_rest := EmptyString |})).


(** What the post action does with the answer to its request: the part of
    [post_to_poznote] that follows [poznote_request]. *)
Definition after_post (cfg : Config) (w : World) (show_delete show_update burn debug : bool)
    (data : value) : M unit :=
  note <- get data "note" (JObj []) ;;
  note_id <- get note "id" JNull ;;
  let full_url := note_url cfg note_id in
  print ("Success: " ++ full_url) ;;
  copy_to_clipboard full_url ;;
  (if show_delete && Py.truthy note_id then
     print ("To delete this note run: " ++ script_name w ++ " -D " ++ Py.str note_id)
   else ret tt) ;;
  (if show_update && Py.truthy note_id then
     print ("To update this note run: [command] | " ++ script_name w
            ++ " -U " ++ Py.str note_id)
   else ret tt) ;;
  if burn && Py.truthy note_id then
    print_burn_banner (workspace cfg) ;;
    confirm_burn ;;
    delete_note note_id false debug
  else ret tt.

(** The state of a post once its request is answered. *)
Definition posted (w : World) (cfg : Config) (args : Args) (input_data : string) : State :=
  {| trace := echo (debug args) (post_request w cfg input_data (tags args))
              ++ [Http (post_request w cfg input_data (tags args))];
     stdin_rest := if clipboard args then stdin_text w else EmptyString |}.


(** * Properties *)

(** ** Text *)

Example strip_trims_both_ends :
  PyStr.strip (PyStr.nl ++ "  hello world " ++ PyStr.nl) = "hello world".
Proof. reflexivity. Qed.

Example rstrip_char_drops_every_trailing_slash :
  PyStr.rstrip_char "/" "https://notes.example//" = "https://notes.example".
Proof. reflexivity. Qed.

Example split_keeps_empty_pieces :
  PyStr.split "," ",a,,b," = [EmptyString; "a"; EmptyString; "b"; EmptyString].
Proof. reflexivity. Qed.

Example lower_of_mixed_case : PyStr.lower "TrUe" = "true".
Proof. reflexivity. Qed.

Example str_of_integers : map PyStr.of_Z [0; 42; -7] = ["0"; "42"; "-7"].
Proof. reflexivity. Qed.

Example str_of_values :
  map Py.str [JNull; JBool true; JInt 99; JStr "n-1"; JArr [JStr "it's"; JInt 1];
              JObj [("id", JInt 3)]]
  = ["None"; "True"; "99"; "n-1"; "[" ++ String Py.dquote "it's" ++ String Py.dquote ", 1]";
     "{'id': 3}"].
Proof. reflexivity. Qed.

Example dumps_of_a_payload :
  Py.dumps (JObj [("content", JStr ("a" ++ PyStr.nl ++ "b")); ("tags", JArr [JStr "x"; JInt 1])])
  = "{" ++ String Py.dquote "content" ++ String Py.dquote ": "
    ++ String Py.dquote "a" ++ String Py.backslash "nb" ++ String Py.dquote ", "
    ++ String Py.dquote "tags" ++ String Py.dquote ": ["
    ++ String Py.dquote "x" ++ String Py.dquote ", 1]}".
Proof. reflexivity. Qed.





Lemma truthy_false_iff (s : string) : PyStr.truthy s = false <-> s = EmptyString.
Proof. destruct s; simpl; split; congruence. Qed.

Lemma opt_truthy_false_iff (o : option string) : opt_truthy o = false <-> missing o.
Proof.
  unfold missing. destruct o as [s|]; simpl.
  - rewrite truthy_false_iff. split.
    + intros ->. now right.
    + intros [H|H]; congruence.
  - split; auto.
Qed.

Lemma opt_truthy_true_iff (o : option string) :
  opt_truthy o = true <-> exists s, o = Some s /\ s <> EmptyString.
Proof.
  destruct o as [s|]; simpl.
  - split.
    + intros H. exists s. split; [reflexivity|]. intros ->. discriminate H.
    + intros (s' & [= <-] & Hne). destruct s; [congruence|reflexivity].
  - split; [discriminate|]. intros (s' & H & _). discriminate H.
Qed.

(** ** The configuration *)

Lemma get_config_unconfigured (w : World) (st : State) :
  configured w = false ->
  get_config w st =
    (Exit 12,
     {| trace := trace st ++ [Stdout ("Error: Credentials missing in " ++ config_path w ++ PyStr.nl)];
        stdin_rest := stdin_rest st |}).
Proof.
  unfold configured, get_config, bind, ask. intros H. rewrite H. simpl.
  reflexivity.
Qed.

Lemma get_config_configured (w : World) (st : State) :
  configured w = true ->
  exists cfg, forall st', get_config w st' = (Ret cfg, st').
Proof.
  unfold configured, get_config, bind, ask. intros H. rewrite H. simpl.
  simpl in H. 
  destruct (getenv w "POZNOTE_URL"), (getenv w "POZNOTE_USER"), (getenv w "POZNOTE_PASS");
    simpl in H; try discriminate H; try (rewrite ?andb_false_r in H; discriminate H).
  eexists. intros st'. reflexivity.
Qed.

Lemma loads_everywhere (w : World) (cfg : Config) :
  loads w cfg -> forall st, get_config w st = (Ret cfg, st).
Proof.
  unfold loads, run. intros H st.
  destruct (configured w) eqn:C.
  - destruct (get_config_configured w st C) as [cfg' Hc].
    rewrite Hc in H. simpl in H. injection H as ->. apply Hc.
  - rewrite (get_config_unconfigured w _ C) in H. discriminate H.
Qed.

Lemma loads_configured (w : World) (cfg : Config) : loads w cfg -> configured w = true.
Proof.
  unfold loads, run. intros H. destruct (configured w) eqn:C; [reflexivity|].
  rewrite (get_config_unconfigured w _ C) in H. discriminate H.
Qed.


Example unconfigured_exits_12 :
  run get_config Sample.unconfigured
  = (Exit 12,
     {| trace := [Stdout ("Error: Credentials missing in /home/alice/.poznote.conf" ++ PyStr.nl)];
        stdin_rest := "hello world" ++ PyStr.nl |})
  /\ fst (run (main Sample.plain) Sample.unconfigured) = Exit 12.
Proof. split; reflexivity. Qed.

(** The sample configuration file resolves to the sample configuration. *)
Example piped_loads : loads Sample.piped (Sample.config true).
Proof. reflexivity. Qed.

Example basic_loads : loads Sample.basic (Sample.config false).
Proof. reflexivity. Qed.

(** ** Traces *)

Lemma requests_app (a b : list event) : requests (a ++ b) = (requests a ++ requests b)%list.
Proof.
  induction a as [|e a IH]; simpl; [reflexivity|].
  destruct e; simpl; now rewrite IH.
Qed.

Lemma requests_echo (debug : bool) (rq : http_request) : requests (echo debug rq) = [].
Proof. now destruct debug. Qed.

Lemma actions_app (a b : list event) : actions (a ++ b) = (actions a ++ actions b)%list.
Proof.
  induction a as [|e a IH]; simpl; [reflexivity|].
  destruct e; simpl; now rewrite IH.
Qed.


Lemma add_nil (st : State) : add st [] = st.
Proof. destruct st. unfold add. simpl. now rewrite app_nil_r. Qed.

Lemma add_add (st : State) (a b : list event) : add (add st a) b = add st (a ++ b).
Proof. unfold add. simpl. now rewrite app_assoc. Qed.

(** ** One request *)

Lemma poznote_request_run (w : World) (cfg : Config) (st : State)
    (method endpoint : string) (payload : option value)
    (params : option (list (string * string))) (debug : bool) :
  loads w cfg ->
  poznote_request method endpoint payload params debug w st =
    answer w st debug (build_request cfg method endpoint payload params).
Proof.
  intros L. unfold poznote_request, answer, bind.
  rewrite (loads_everywhere w cfg L).
  set (rq := build_request cfg method endpoint payload params).
  destruct debug.
  - unfold print_debug_curl, send, print, write, emit, bind, ask, get_state, ret, sys_exit.
    cbn [trace stdin_rest]. rewrite !requests_app. cbn [requests app].
    rewrite !app_nil_r.
    destruct (server w (requests (trace st)) rq) as [e|[body|]];
      unfold add, echo; cbn [trace stdin_rest rq_json rq_method rq_url rq_headers rq_auth rq build_request];
      rewrite <- ?app_assoc; reflexivity.
  - unfold send, print, write, emit, bind, ask, get_state, ret, sys_exit.
    cbn [trace stdin_rest].
    destruct (server w (requests (trace st)) rq) as [e|[body|]];
      unfold add, echo; cbn [trace stdin_rest app]; rewrite <- ?app_assoc; reflexivity.
Qed.

(** ** Running a sequence *)

Lemma bind_of_ret {A B : Type} (m : M A) (k : A -> M B) (w : World) (st st' : State) (a : A) :
  m w st = (Ret a, st') -> bind m k w st = k a w st'.
Proof. unfold bind. now intros ->. Qed.


Lemma bind_of_uncaught {A B : Type} (m : M A) (k : A -> M B) (w : World) (st st' : State)
    (e : string) :
  m w st = (Uncaught e, st') -> bind m k w st = (Uncaught e, st').
Proof. unfold bind. now intros ->. Qed.

Lemma print_run (s : string) (w : World) (st : State) :
  print s w st = (Ret tt, add st [Stdout (s ++ PyStr.nl)]).
Proof. reflexivity. Qed.

Lemma write_run (s : string) (w : World) (st : State) :
  write s w st = (Ret tt, add st [Stdout s]).
Proof. reflexivity. Qed.

Lemma emit_run (e : event) (w : World) (st : State) : emit e w st = (Ret tt, add st [e]).
Proof. reflexivity. Qed.

Lemma ask_run (w : World) (st : State) : ask w st = (Ret w, st).
Proof. reflexivity. Qed.

Lemma ret_run {A : Type} (a : A) (w : World) (st : State) : ret a w st = (Ret a, st).
Proof. reflexivity. Qed.

Lemma sys_exit_run {A : Type} (c : Z) (w : World) (st : State) :
  @sys_exit A c w st = (Exit c, st).
Proof. reflexivity. Qed.

Lemma get_run (kvs : list (string * value)) (key : string) (default : value)
    (w : World) (st : State) :
  get (JObj kvs) key default w st =
    (Ret (match Py.lookup key kvs with Some v => v | None => default end), st).
Proof. reflexivity. Qed.

Lemma output_app (a b : list event) : output (a ++ b) = (output a ++ output b)%list.
Proof.
  induction a as [|e a IH]; simpl; [reflexivity|].
  destruct e; simpl; now rewrite IH.
Qed.

(** ** Dispatch *)

Lemma main_gate_closed (w : World) (cfg : Config) (args : Args) (st : State) :
  loads w cfg -> any_gated args = true -> adv_feat cfg = false ->
  main args w st =
    (Exit 12,
     add st [Stdout ("Error: Advanced features are disabled in ~/.poznote.conf" ++ PyStr.nl)]).
Proof.
  intros L G A. unfold main, bind. rewrite (loads_everywhere w cfg L), G, A.
  reflexivity.
Qed.



Lemma main_update (w : World) (cfg : Config) (args : Args) (st : State) :
  loads w cfg -> adv_feat cfg = true -> last args = false ->
  opt_truthy (search args) = false -> opt_truthy (delete args) = false ->
  opt_truthy (update args) = true ->
  main args w st = update_note (JStr (given (update args))) (debug args) w st.
Proof.
  intros L A H S D U. unfold main, bind. rewrite (loads_everywhere w cfg L), A, H, S, D, U.
  now rewrite andb_false_r.
Qed.

Lemma main_post (w : World) (cfg : Config) (args : Args) (st : State) :
  loads w cfg -> any_gated args = false ->
  main args w st =
    post_to_poznote (tags args) (clipboard args) (d args) (u args) (burn args) (debug args) w st.
Proof.
  intros L G. unfold main, bind. rewrite (loads_everywhere w cfg L), G.
  unfold any_gated in G. simpl in G.
  apply orb_false_elim in G as [G1 G]. apply orb_false_elim in G as [G2 G].
  apply orb_false_elim in G as [G3 G]. apply orb_false_elim in G as [G4 _].
  now rewrite G1, G2, G3, G4.
Qed.

(** ** Reading *)





Example search_without_notes :
  output (trace (snd (run (main (Sample.with_search "milk")) Sample.barren)))
  = ["No notes found matching 'milk' in workspace: Poznote" ++ PyStr.nl].
Proof. reflexivity. Qed.

(** ** The trace only grows *)

Lemma grows_ret {A : Type} (a : A) : grows (ret a).
Proof. intros w st. exists []. simpl. now rewrite app_nil_r. Qed.

Lemma grows_sys_exit {A : Type} (c : Z) : grows (@sys_exit A c).
Proof. intros w st. exists []. simpl. now rewrite app_nil_r. Qed.

Lemma grows_raise {A : Type} (e : string) : grows (@raise A e).
Proof. intros w st. exists []. simpl. now rewrite app_nil_r. Qed.

Lemma grows_ask : grows ask.
Proof. intros w st. exists []. simpl. now rewrite app_nil_r. Qed.

Lemma grows_get_state : grows get_state.
Proof. intros w st. exists []. simpl. now rewrite app_nil_r. Qed.

Lemma grows_stdin_read : grows stdin_read.
Proof. intros w st. exists []. simpl. now rewrite app_nil_r. Qed.

Lemma grows_emit (e : event) : grows (emit e).
Proof. intros w st. now exists [e]. Qed.

Lemma grows_write (s : string) : grows (write s).
Proof. apply grows_emit. Qed.

Lemma grows_print (s : string) : grows (print s).
Proof. apply grows_emit. Qed.

Lemma grows_stdin_readline : grows stdin_readline.
Proof.
  intros w st. unfold stdin_readline.
  destruct (split_line (stdin_rest st)) as [line rest]. now exists [StdinLine line].
Qed.

Lemma grows_bind {A B : Type} (m : M A) (k : A -> M B) :
  grows m -> (forall a, grows (k a)) -> grows (bind m k).
Proof.
  intros Hm Hk w st. unfold bind. destruct (Hm w st) as [evs E].
  destruct (m w st) as [[a|c|e] st']; simpl in E.
  - destruct (Hk a w st') as [evs' E']. exists (evs ++ evs')%list.
    now rewrite E', E, app_assoc.
  - now exists evs.
  - now exists evs.
Qed.

Lemma grows_if {A : Type} (b : bool) (m1 m2 : M A) :
  grows m1 -> grows m2 -> grows (if b then m1 else m2).
Proof. now destruct b. Qed.

Lemma grows_get (v : value) (key : string) (default : value) : grows (get v key default).
Proof. destruct v; first [apply grows_ret | apply grows_raise]. Qed.

Lemma grows_item0 (v : value) : grows (item0 v).
Proof.
  destruct v as [| | |s|l|]; try apply grows_raise.
  - destruct s; [apply grows_raise | apply grows_ret].
  - destruct l; [apply grows_raise | apply grows_ret].
Qed.

Create HintDb grows.

#[local] Hint Resolve grows_ret grows_sys_exit grows_raise grows_ask grows_get_state
  grows_stdin_read grows_emit grows_write grows_print grows_stdin_readline
  grows_get grows_item0 : grows.

(** Goes through a sequence, one [bind] and one branch at a time. *)
Ltac grows_steps :=
  repeat first
    [ apply grows_bind; [ | intros ? ]
    | apply grows_if
    | solve [ auto with grows ]
    | match goal with
      | |- grows (match ?x with _ => _ end) => destruct x
      end ].

Lemma grows_send (rq : http_request) : grows (send rq).
Proof. unfold send. grows_steps. Qed.

Lemma grows_get_config : grows get_config.
Proof. unfold get_config. grows_steps. Qed.

Lemma grows_print_debug_curl (method url : string) (headers : list (string * string))
    (auth : string * string) (payload : option value) :
  grows (print_debug_curl method url headers auth payload).
Proof. unfold print_debug_curl. grows_steps. Qed.

#[local] Hint Resolve grows_send grows_get_config grows_print_debug_curl : grows.

Lemma grows_poznote_request (method endpoint : string) (payload : option value)
    (params : option (list (string * string))) (debug : bool) :
  grows (poznote_request method endpoint payload params debug).
Proof. unfold poznote_request. grows_steps. Qed.

Lemma grows_copy_to_clipboard (text : string) : grows (copy_to_clipboard text).
Proof. unfold copy_to_clipboard. grows_steps. Qed.

Lemma grows_input (prompt : string) : grows (input prompt).
Proof. unfold input. grows_steps. Qed.

#[local] Hint Resolve grows_poznote_request grows_copy_to_clipboard grows_input : grows.

Lemma grows_delete_note (note_id : value) (silent debug : bool) :
  grows (delete_note note_id silent debug).
Proof. unfold delete_note. grows_steps. Qed.

Lemma grows_confirm_burn : grows confirm_burn.
Proof. unfold confirm_burn. grows_steps. Qed.

#[local] Hint Resolve grows_delete_note grows_confirm_burn : grows.




Example latest_of_42_and_7 :
  map rq_url (requests (trace (snd (run (main Sample.with_last) Sample.piped))))
  = ["https://notes.example/api/v1/notes"; "https://notes.example/api/v1/notes/42"].
Proof. reflexivity. Qed.

Example search_of_42_and_7 :
  map rq_url (requests (trace (snd (run (main (Sample.with_search "milk")) Sample.piped))))
  = ["https://notes.example/api/v1/notes"; "https://notes.example/api/v1/notes/42"].
Proof. reflexivity. Qed.

(** ** The codes a run can exit with *)

Lemma exits_within_ret {A : Type} (l : list Z) (w : World) (a : A) : exits_within l w (ret a).
Proof. intros st c H. discriminate H. Qed.

Lemma exits_within_raise {A : Type} (l : list Z) (w : World) (e : string) :
  exits_within l w (@raise A e).
Proof. intros st c H. discriminate H. Qed.

Lemma exits_within_sys_exit {A : Type} (l : list Z) (w : World) (c : Z) :
  In c l -> exits_within l w (@sys_exit A c).
Proof. intros I st c' H. injection H as <-. exact I. Qed.

Lemma exits_within_ask (l : list Z) (w : World) : exits_within l w ask.
Proof. intros st c H. discriminate H. Qed.

Lemma exits_within_get_state (l : list Z) (w : World) : exits_within l w get_state.
Proof. intros st c H. discriminate H. Qed.

Lemma exits_within_emit (l : list Z) (w : World) (e : event) : exits_within l w (emit e).
Proof. intros st c H. discriminate H. Qed.

Lemma exits_within_write (l : list Z) (w : World) (s : string) : exits_within l w (write s).
Proof. apply exits_within_emit. Qed.

Lemma exits_within_print (l : list Z) (w : World) (s : string) : exits_within l w (print s).
Proof. apply exits_within_emit. Qed.

Lemma exits_within_stdin_read (l : list Z) (w : World) : exits_within l w stdin_read.
Proof. intros st c H. discriminate H. Qed.

Lemma exits_within_stdin_readline (l : list Z) (w : World) : exits_within l w stdin_readline.
Proof.
  intros st c. unfold stdin_readline. destruct (split_line (stdin_rest st)). discriminate.
Qed.

Lemma exits_within_bind {A B : Type} (l : list Z) (w : World) (m : M A) (k : A -> M B) :
  exits_within l w m -> (forall a, exits_within l w (k a)) -> exits_within l w (bind m k).
Proof.
  intros Hm Hk st c. unfold bind. specialize (Hm st).
  destruct (m w st) as [[a|c'|e] st']; simpl.
  - apply Hk.
  - intros [= <-]. now apply Hm.
  - discriminate.
Qed.

Lemma exits_within_if {A : Type} (l : list Z) (w : World) (b : bool) (m1 m2 : M A) :
  exits_within l w m1 -> exits_within l w m2 -> exits_within l w (if b then m1 else m2).
Proof. now destruct b. Qed.

Lemma exits_within_get (l : list Z) (w : World) (v : value) (key : string) (default : value) :
  exits_within l w (get v key default).
Proof. destruct v; first [apply exits_within_ret | apply exits_within_raise]. Qed.

Lemma exits_within_get_config (l : list Z) (w : World) (cfg : Config) :
  loads w cfg -> exits_within l w get_config.
Proof. intros L st c. rewrite (loads_everywhere w cfg L). discriminate. Qed.

Create HintDb exits.

#[local] Hint Resolve exits_within_ret exits_within_raise exits_within_ask
  exits_within_get_state exits_within_emit exits_within_write exits_within_print
  exits_within_stdin_read exits_within_stdin_readline exits_within_get
  exits_within_get_config : exits.

#[local] Hint Extern 1 (exits_within _ _ (sys_exit _)) =>
  apply exits_within_sys_exit; simpl; tauto : exits.

Ltac exits_steps :=
  repeat first
    [ solve [ eauto with exits ]
    | apply exits_within_bind; [ | intros ? ]
    | apply exits_within_if
    | match goal with
      | |- exits_within _ _ (match ?x with _ => _ end) => destruct x
      end ].

Lemma exits_within_poznote_request (w : World) (cfg : Config) (method endpoint : string)
    (payload : option value) (params : option (list (string * string))) (debug : bool) :
  loads w cfg ->
  exits_within [0; 11; 13] w (poznote_request method endpoint payload params debug).
Proof. intros L. unfold poznote_request, print_debug_curl, send. exits_steps. Qed.

#[local] Hint Resolve exits_within_poznote_request : exits.

(** With a configuration that loads, the post action exits with 0, 11 or 13
    when it exits. *)
Lemma exits_within_post_to_poznote (w : World) (cfg : Config) (tags : option string)
    (from_clipboard show_delete show_update burn debug : bool) :
  loads w cfg ->
  exits_within [0; 11; 13] w
    (post_to_poznote tags from_clipboard show_delete show_update burn debug).
Proof.
  intros L.
  unfold post_to_poznote, read_content, get_clipboard_text, copy_to_clipboard,
    confirm_burn, delete_note, input.
  exits_steps.
Qed.

(** ** The gate on advanced features *)

Lemma any_gated_false (args : Args) :
  any_gated args = false <->
  last args = false /\ opt_truthy (search args) = false
  /\ opt_truthy (delete args) = false /\ opt_truthy (update args) = false.
Proof.
  unfold any_gated. simpl. rewrite orb_false_r, !orb_false_iff. tauto.
Qed.

Lemma absent_if_empty_truthy (o : option string) :
  opt_truthy (absent_if_empty o) = opt_truthy o.
Proof. unfold absent_if_empty. now destruct (opt_truthy o) eqn:E. Qed.

Lemma absent_if_empty_given (o : option string) :
  opt_truthy o = true -> given (absent_if_empty o) = given o.
Proof. unfold absent_if_empty. now intros ->. Qed.

(** C2, as the script has it: an invocation that sets [-L], or gives [-s],
    [-D] or [-U] a value that is not empty, while the configuration has the
    advanced features off, ends with status 12 and sends no request. *)
Theorem gated_action_rejected (w : World) (cfg : Config) (args : Args) :
  loads w cfg -> adv_feat cfg = false -> any_gated args = true ->
  fst (run (main args) w) = Exit 12
  /\ requests (trace (snd (run (main args) w))) = [].
Proof.
  intros L A G. unfold run. rewrite (main_gate_closed w cfg args _ L G A).
  split; reflexivity.
Qed.

Lemma gated_action_rejected_witness :
  fst (run (main (Sample.with_delete "5")) Sample.basic) = Exit 12
  /\ requests (trace (snd (run (main (Sample.with_delete "5")) Sample.basic))) = [].
Proof.
  apply (gated_action_rejected Sample.basic (Sample.config false) (Sample.with_delete "5"));
    reflexivity.
Defined.

(** C2 as the specification words it fails: [-s] with the empty text as its query,
    advanced features off.  The run posts the piped text and ends with
    status 0. *)
Lemma gated_flag_with_empty_value_not_rejected :
  search (Sample.with_search EmptyString) = Some EmptyString
  /\ loads Sample.basic (Sample.config false)
  /\ exit_status (fst (run (main (Sample.with_search EmptyString)) Sample.basic)) = 0
  /\ map rq_method (requests (trace (snd (run (main (Sample.with_search EmptyString))
                                              Sample.basic)))) = ["POST"].
Proof. repeat split. Qed.

(** C10: a gated option whose value is the empty text counts as absent, in
    the gate and in the dispatch: the run is that of the invocation without
    it.  When [-L] is not set and each of [-s], [-D] and [-U] is absent or
    empty, the gate stays open whatever the configuration says of advanced
    features, the run is that of the post action, and it does not end with
    status 12. *)
Theorem empty_gated_value_is_absent (w : World) (cfg : Config) (args : Args) :
  loads w cfg ->
  any_gated (without_empty_values args) = any_gated args
  /\ run (main args) w = run (main (without_empty_values args)) w
  /\ (last args = false ->
      missing (search args) -> missing (delete args) -> missing (update args) ->
      any_gated args = false
      /\ run (main args) w
         = run (post_to_poznote (tags args) (clipboard args) (d args) (u args)
                  (burn args) (debug args)) w
      /\ fst (run (main args) w) <> Exit 12).
Proof.
  intros L. split; [|split].
  - unfold any_gated, without_empty_values. cbn [last search delete update].
    now rewrite !absent_if_empty_truthy.
  - unfold run, main, bind. rewrite (loads_everywhere w cfg L).
    unfold any_gated, without_empty_values.
    cbn [last search delete update debug tags clipboard d u burn].
    rewrite !absent_if_empty_truthy.
    destruct (last args); [reflexivity|].
    destruct (opt_truthy (search args)) eqn:S;
      [now rewrite (absent_if_empty_given _ S)|].
    destruct (opt_truthy (delete args)) eqn:D;
      [now rewrite (absent_if_empty_given _ D)|].
    destruct (opt_truthy (update args)) eqn:U;
      [now rewrite (absent_if_empty_given _ U)|].
    reflexivity.
  - intros H S D U. apply opt_truthy_false_iff in S, D, U.
    assert (G : any_gated args = false) by now apply any_gated_false.
    split; [exact G|]. unfold run. rewrite (main_post w cfg args _ L G).
    split; [reflexivity|]. intros E.
    apply (exits_within_post_to_poznote w cfg _ _ _ _ _ _ L) in E.
    simpl in E. intuition discriminate.
Qed.

Lemma empty_gated_value_is_absent_witness :
  run (main (Sample.with_delete EmptyString)) Sample.basic = run (main Sample.plain) Sample.basic
  /\ fst (run (main (Sample.with_delete EmptyString)) Sample.basic) <> Exit 12.
Proof.
  destruct (empty_gated_value_is_absent Sample.basic (Sample.config false)
              (Sample.with_delete EmptyString)) as (_ & E & P); [reflexivity|].
  split; [exact E|]. apply P; first [reflexivity | now left | now right].
Defined.

(** ** Update *)

Lemma updates_true (args : Args) :
  updates args = true ->
  last args = false /\ opt_truthy (search args) = false
  /\ opt_truthy (delete args) = false /\ opt_truthy (update args) = true.
Proof.
  unfold updates. rewrite !andb_true_iff, !negb_true_iff. tauto.
Qed.

(** C5: an update whose standard input is a terminal ends with status 11 and
    sends no request; an update whose piped input is empty once trimmed
    sends no request and ends with status 0. *)
Theorem update_requires_piped_content (w : World) (cfg : Config) (args : Args) :
  loads w cfg -> adv_feat cfg = true -> updates args = true ->
  (stdin_isatty w = true ->
   fst (run (main args) w) = Exit 11
   /\ requests (trace (snd (run (main args) w))) = [])
  /\ (stdin_isatty w = false -> PyStr.strip (stdin_text w) = EmptyString ->
      exit_status (fst (run (main args) w)) = 0
      /\ requests (trace (snd (run (main args) w))) = []).
Proof.
  intros L A U. apply updates_true in U as (H & S & D & U).
  unfold run. rewrite (main_update w cfg args _ L A H S D U).
  unfold update_note, bind, ask, stdin_read. cbn [init stdin_rest trace].
  split.
  - intros ->. split; reflexivity.
  - intros -> E. cbn [fst snd init stdin_rest trace]. rewrite E. split; reflexivity.
Qed.

Lemma update_requires_piped_content_witness :
  (fst (run (main (Sample.with_update "5")) Sample.interactive) = Exit 11
   /\ requests (trace (snd (run (main (Sample.with_update "5")) Sample.interactive))) = [])
  /\ (exit_status (fst (run (main (Sample.with_update "5")) Sample.blank)) = 0
      /\ requests (trace (snd (run (main (Sample.with_update "5")) Sample.blank))) = []).
Proof.
  split.
  - apply (update_requires_piped_content Sample.interactive (Sample.config true)
             (Sample.with_update "5")); reflexivity.
  - apply (update_requires_piped_content Sample.blank (Sample.config true)
             (Sample.with_update "5")); reflexivity.
Defined.

Example update_with_piped_text :
  map (fun rq => (rq_method rq, rq_url rq, rq_json rq))
    (requests (trace (snd (run (main (Sample.with_update "5")) Sample.piped))))
  = [("PATCH", "https://notes.example/api/v1/notes/5",
      Some (JObj [("content", JStr "hello world")]))].
Proof. reflexivity. Qed.

(** ** Post *)

(** Reading the content sends nothing and prints nothing when it returns. *)
Lemma read_content_quiet (from_clipboard : bool) (w : World) (st : State)
    (content : option string) :
  fst (read_content from_clipboard w st) = Ret content ->
  trace (snd (read_content from_clipboard w st)) = trace st.
Proof.
  unfold read_content, get_clipboard_text, bind, ask, stdin_read, ret.
  destruct from_clipboard.
  - destruct (which w "xclip"); [destruct (xclip_out w); reflexivity|].
    destruct (which w "wl-paste"); [destruct (wl_paste_out w); reflexivity|reflexivity].
  - destruct (stdin_isatty w); [discriminate|reflexivity].
Qed.

(** C6: a post whose content, read from the pipe and trimmed or read from
    the clipboard, is empty sends no request and ends with status 0. *)
Theorem post_without_content (w : World) (cfg : Config) (args : Args)
    (content : option string) :
  loads w cfg -> any_gated args = false ->
  fst (run (read_content (clipboard args)) w) = Ret content ->
  opt_truthy content = false ->
  fst (run (main args) w) = Exit 0
  /\ requests (trace (snd (run (main args) w))) = [].
Proof.
  intros L G R E. unfold run in *. rewrite (main_post w cfg args _ L G).
  unfold post_to_poznote.
  erewrite bind_of_ret by apply (loads_everywhere w cfg L).
  pose proof (read_content_quiet _ _ _ _ R) as Q.
  unfold bind. destruct (read_content (clipboard args) w (init w)) as [r st1].
  simpl in R, Q. subst r. rewrite E. cbn [negb]. unfold sys_exit. cbn [fst snd].
  rewrite Q. split; reflexivity.
Qed.

Lemma post_without_content_witness :
  fst (run (main Sample.plain) Sample.blank) = Exit 0
  /\ requests (trace (snd (run (main Sample.plain) Sample.blank))) = [].
Proof.
  apply (post_without_content Sample.blank (Sample.config true) Sample.plain
           (Some EmptyString)); reflexivity.
Defined.

(** ** Requests and confirmations *)

Lemma milestones_app (a b : list event) :
  milestones (a ++ b) = (milestones a ++ milestones b)%list.
Proof.
  induction a as [|e a IH]; simpl; [reflexivity|].
  destruct e; simpl; now rewrite IH.
Qed.

Lemma milestones_echo (debug : bool) (rq : http_request) : milestones (echo debug rq) = [].
Proof. now destruct debug. Qed.

Lemma requests_milestones (tr : list event) : requests (milestones tr) = requests tr.
Proof.
  induction tr as [|e tr IH]; simpl; [reflexivity|].
  destruct e; simpl; now rewrite IH.
Qed.

Lemma quiet_ret : quiet (ret tt).
Proof. intros w st. exists []. now rewrite add_nil. Qed.

Lemma quiet_print (s : string) : quiet (print s).
Proof. intros w st. now exists [Stdout (s ++ PyStr.nl)]. Qed.

Lemma quiet_if (b : bool) (m1 m2 : M unit) : quiet m1 -> quiet m2 -> quiet (if b then m1 else m2).
Proof. now destruct b. Qed.

Lemma quiet_copy_to_clipboard (text : string) : quiet (copy_to_clipboard text).
Proof.
  intros w st. unfold copy_to_clipboard, bind, ask.
  destruct (which w "xclip"); [eexists; split; [apply emit_run|reflexivity]|].
  destruct (which w "wl-copy"); [eexists; split; [apply emit_run|reflexivity]|].
  exists []. now rewrite add_nil.
Qed.

Lemma bind_of_quiet {B : Type} (m : M unit) (k : unit -> M B) (w : World) (st : State) :
  quiet m ->
  exists evs, bind m k w st = k tt w (add st evs) /\ milestones evs = [].
Proof.
  intros Q. destruct (Q w st) as (evs & E & Mi). exists evs.
  split; [now apply bind_of_ret | exact Mi].
Qed.

(** What reading the content leaves of the state. *)
Lemma read_content_state (from_clipboard : bool) (w : World) (st : State)
    (content : option string) :
  fst (read_content from_clipboard w st) = Ret content ->
  snd (read_content from_clipboard w st)
  = if from_clipboard then st else {| trace := trace st; stdin_rest := EmptyString |}.
Proof.
  unfold read_content, get_clipboard_text, bind, ask, stdin_read, ret.
  destruct from_clipboard.
  - destruct (which w "xclip"); [destruct (xclip_out w); reflexivity|].
    destruct (which w "wl-paste"); [destruct (wl_paste_out w); reflexivity|reflexivity].
  - destruct (stdin_isatty w); [discriminate|reflexivity].
Qed.

Lemma split_line_nonempty (s : string) : s <> EmptyString -> fst (split_line s) <> EmptyString.
Proof.
  destruct s as [|c r]; [congruence|]. intros _. cbn [split_line].
  destruct (Ascii.eqb c (ascii_of_N 10)); [discriminate|].
  destruct (split_line r). discriminate.
Qed.

(** The confirmation of the burn flow, when it can be had: one read, and
    nothing sent. *)
Lemma confirm_burn_run (w : World) (st : State) :
  dev_tty w = TtyReadable \/ stdin_rest st <> EmptyString ->
  exists evs c rest,
    confirm_burn w st = (Ret tt, {| trace := trace st ++ evs; stdin_rest := rest |})
    /\ milestones evs = [c] /\ is_confirmation c = true.
Proof.
  intros H. unfold confirm_burn, bind, ask.
  assert (F : stdin_rest st <> EmptyString ->
              exists line rest,
                input "Press [Enter] to delete..." w st
                = (Ret (PyStr.rstrip_by (PyStr.is_char (ascii_of_N 10)) line),
                   {| trace := trace st ++ [Stdout "Press [Enter] to delete..."; StdinLine line];
                      stdin_rest := rest |})).
  { intros Hs. unfold input, bind, write, emit, stdin_readline. cbn [trace stdin_rest].
    pose proof (split_line_nonempty _ Hs) as Hl.
    destruct (split_line (stdin_rest st)) as [line rest]. simpl in Hl.
    exists line, rest. destruct line; [congruence|].
    unfold ret. now rewrite <- app_assoc. }
  destruct (dev_tty w) eqn:T.
  - exists [Stdout "Press [Enter] to delete..."; TtyRead], TtyRead, (stdin_rest st).
    unfold write, emit. cbn [trace stdin_rest]. rewrite <- app_assoc. now repeat split.
  - destruct H as [H|H]; [discriminate|]. destruct (F H) as (line & rest & E).
    rewrite E. unfold ret. eexists _, (StdinLine line), rest. now repeat split.
  - destruct H as [H|H]; [discriminate|].
    clear F. unfold input, bind, write, emit, stdin_readline. cbn [trace stdin_rest].
    pose proof (split_line_nonempty _ H) as Hl.
    destruct (split_line (stdin_rest st)) as [line rest]. simpl in Hl.
    destruct line as [|c l]; [congruence|]. unfold ret.
    exists [Stdout "Press [Enter] to delete..."; Stdout "Press [Enter] to delete...";
            StdinLine (String c l)], (StdinLine (String c l)), rest.
    rewrite <- !app_assoc. now repeat split.
Qed.






(** Where the pieces need no trimming and none is empty, the tags sent are
    those of the specification. *)
Example post_tags_a_b : PyStr.split "," "a,b" = spec_tags "a,b".
Proof. reflexivity. Qed.

(** ** Burn *)

Lemma print_burn_banner_run (workspace : string) (w : World) (st : State) :
  stdout_takes_fire w = true ->
  print_burn_banner workspace w st = (Ret tt, add st [Banner workspace]).
Proof. intros F. unfold print_burn_banner, bind, ask. now rewrite F. Qed.


(** Burn mode up to the DELETE: the post, the banner, then the
    confirmation. *)
Lemma burn_reaches_delete (w : World) (cfg : Config) (args : Args)
    (input_data : string) (data note : list (string * value)) (note_id : value) :
  loads w cfg -> any_gated args = false -> burn args = true ->
  fst (run (read_content (clipboard args)) w) = Ret (Some input_data) ->
  input_data <> EmptyString ->
  server w [] (post_request w cfg input_data (tags args)) = Response (Some (JObj data)) ->
  Py.lookup "note" data = Some (JObj note) ->
  Py.lookup "id" note = Some note_id ->
  Py.truthy note_id = true ->
  confirmable w (clipboard args) ->
  stdout_takes_fire w = true ->
  exists confirmation st,
    is_confirmation confirmation = true
    /\ milestones (trace st)
       = [Http (post_request w cfg input_data (tags args)); confirmation]
    /\ run (main args) w = delete_note note_id false (debug args) w st.
Proof.
  intros L G B R E S N I T C F. unfold run in *. rewrite (main_post w cfg args _ L G).
  unfold post_to_poznote.
  erewrite bind_of_ret by apply (loads_everywhere w cfg L).
  pose proof (read_content_state _ _ _ _ R) as Q.
  unfold bind at 1. destruct (read_content (clipboard args) w (init w)) as [r st1].
  simpl in R, Q. subst r.
  assert (T' : opt_truthy (Some input_data) = true)
    by (destruct input_data; [congruence|reflexivity]).
  rewrite T'. cbn [negb].
  assert (Q1 : trace st1 = []) by (rewrite Q; now destruct (clipboard args)).
  assert (Q2 : dev_tty w = TtyReadable \/ stdin_rest st1 <> EmptyString).
  { destruct C as [C|[C1 C2]]; [now left|right]. rewrite Q, C1. exact C2. }
  clear Q.
  erewrite bind_of_ret by apply ask_run.
  erewrite bind_of_ret
    by (rewrite (poznote_request_run w cfg _ _ _ _ _ _ L); unfold answer;
        rewrite Q1; cbn [requests]; fold (post_request w cfg input_data (tags args));
        rewrite S; reflexivity).
  erewrite bind_of_ret by (rewrite get_run, N; reflexivity).
  erewrite bind_of_ret by (rewrite get_run, I; reflexivity).
  erewrite bind_of_ret by apply print_run.
  rewrite T, B, !andb_true_r. cbn [andb].
  set (rq := post_request w cfg input_data (tags args)).
  match goal with
  | |- context [bind (copy_to_clipboard ?t) ?k w ?s] =>
      destruct (bind_of_quiet (copy_to_clipboard t) k w s (quiet_copy_to_clipboard t))
        as (e1 & E1 & M1)
  end.
  rewrite E1. clear E1.
  match goal with
  | |- context [bind (if d args then ?m else ret tt) ?k w ?s] =>
      destruct (bind_of_quiet (if d args then m else ret tt) k w s
                  (quiet_if _ _ _ (quiet_print _) quiet_ret)) as (e2 & E2 & M2)
  end.
  rewrite E2. clear E2.
  match goal with
  | |- context [bind (if u args then ?m else ret tt) ?k w ?s] =>
      destruct (bind_of_quiet (if u args then m else ret tt) k w s
                  (quiet_if _ _ _ (quiet_print _) quiet_ret)) as (e3 & E3 & M3)
  end.
  rewrite E3. clear E3.
  erewrite bind_of_ret by apply (print_burn_banner_run _ _ _ F).
  rewrite !add_add.
  match goal with
  | |- context [bind confirm_burn ?k w ?s] =>
      destruct (confirm_burn_run w s) as (e4 & c & rest & E4 & M4 & C4);
        [exact Q2|]
  end.
  erewrite bind_of_ret by exact E4. clear E4.
  exists c. eexists. split; [exact C4|]. split; [|reflexivity].
  cbn [trace add]. rewrite Q1. cbn [app].
  rewrite !milestones_app. cbn [milestones is_confirmation].
  rewrite !milestones_app, milestones_echo, M1, M2, M3, M4. reflexivity.
Qed.

(** C4, as the script has it: in burn mode, after a post that the service
    answers with a note id that counts as true, when standard output can
    take the banner of burn mode and the confirmation can be read, the run
    sends the post, reads the confirmation, and then sends one request, the
    DELETE of that id, and no other.  When the service fails that DELETE
    the run ends with status 13. *)
Theorem burn_deletes_once_after_confirmation (w : World) (cfg : Config) (args : Args)
    (input_data : string) (data note : list (string * value)) (note_id : value) :
  loads w cfg -> any_gated args = false -> burn args = true ->
  fst (run (read_content (clipboard args)) w) = Ret (Some input_data) ->
  input_data <> EmptyString ->
  server w [] (post_request w cfg input_data (tags args)) = Response (Some (JObj data)) ->
  Py.lookup "note" data = Some (JObj note) ->
  Py.lookup "id" note = Some note_id ->
  Py.truthy note_id = true ->
  confirmable w (clipboard args) ->
  stdout_takes_fire w = true ->
  exists confirmation,
    is_confirmation confirmation = true
    /\ milestones (trace (snd (run (main args) w)))
       = [Http (post_request w cfg input_data (tags args));
          confirmation;
          Http (delete_request cfg note_id)]
    /\ (forall e,
          server w [post_request w cfg input_data (tags args)] (delete_request cfg note_id)
          = RequestException e ->
          fst (run (main args) w) = Exit 13)
    /\ (forall body,
          server w [post_request w cfg input_data (tags args)] (delete_request cfg note_id)
          = Response body ->
          fst (run (main args) w) = Ret tt).
Proof.
  intros L G B R E S N I T C F.
  destruct (burn_reaches_delete w cfg args input_data data note note_id
              L G B R E S N I T C F) as (c & st & Hc & Hm & X).
  exists c. split; [exact Hc|]. rewrite X. clear X.
  set (rq := post_request w cfg input_data (tags args)) in *.
  assert (Hr : requests (trace st) = [rq]).
  { rewrite <- requests_milestones, Hm. cbn [requests].
    destruct c; try discriminate Hc; reflexivity. }
  unfold delete_note, bind.
  rewrite (poznote_request_run w cfg st _ _ _ _ _ L). unfold answer. rewrite Hr.
  fold (delete_request cfg note_id).
  destruct (server w [rq] (delete_request cfg note_id)) as [e|[body|]];
    cbn [negb fst snd]; rewrite ?print_run; cbn [fst snd add trace];
    rewrite !milestones_app, milestones_echo, Hm;
    (split; [reflexivity|]); split; intros; congruence.
Qed.

(** The sample post in burn mode: the service numbers the note 99 and is
    asked to delete 99 once the terminal has been read. *)
Lemma burn_deletes_once_after_confirmation_witness :
  exists confirmation,
    is_confirmation confirmation = true
    /\ milestones (trace (snd (run (main Sample.with_burn) Sample.stubborn)))
       = [Http (post_request Sample.stubborn (Sample.config true) "hello world" None);
          confirmation;
          Http (delete_request (Sample.config true) (JInt 99))]
    /\ fst (run (main Sample.with_burn) Sample.stubborn) = Exit 13.
Proof.
  destruct (burn_deletes_once_after_confirmation Sample.stubborn (Sample.config true)
              Sample.with_burn "hello world"
              [("note", JObj [("id", JInt 99)])] [("id", JInt 99)] (JInt 99))
    as (c & Hc & Hm & Hfail & _);
    try reflexivity; try discriminate; [now left|].
  exists c. split; [exact Hc|]. split; [exact Hm|].
  apply (Hfail "500 Server Error"). reflexivity.
Defined.

Example burn_on_the_sample_service :
  map (fun rq => (rq_method rq, rq_url rq))
    (requests (trace (snd (run (main Sample.with_burn) Sample.piped))))
  = [("POST", "https://notes.example/api/v1/notes");
     ("DELETE", "https://notes.example/api/v1/notes/99")]
  /\ fst (run (main Sample.with_burn) Sample.piped) = Ret tt.
Proof. split; reflexivity. Qed.

(** C4 as the specification words it fails in two ways.  A note id that counts as
    false, here 0, is not burnt: the run sends the post alone.  And with no
    terminal device the prompt that stands in for it finds the piped input
    used up: the run ends with [EOFError] and status 1, the note in place. *)
Lemma burn_without_delete :
  (map rq_method (requests (trace (snd (run (main Sample.with_burn) Sample.zeroth))))
   = ["POST"]
   /\ fst (run (main Sample.with_burn) Sample.zeroth) = Ret tt)
  /\ (map rq_method (requests (trace (snd (run (main Sample.with_burn) Sample.detached))))
      = ["POST"]
      /\ fst (run (main Sample.with_burn) Sample.detached) = Uncaught "EOFError"
      /\ exit_status (fst (run (main Sample.with_burn) Sample.detached)) = 1).
Proof. repeat split. Qed.

(** ** Debug mode *)

Lemma requests_actions (tr : list event) : requests (actions tr) = requests tr.
Proof.
  induction tr as [|e tr IH]; simpl; [reflexivity|].
  destruct e; simpl; now rewrite ?IH.
Qed.

Lemma same_actions_requests (st1 st2 : State) :
  same_actions st1 st2 -> requests (trace st1) = requests (trace st2).
Proof. intros [H _]. now rewrite <- (requests_actions (trace st1)), H, requests_actions. Qed.

Lemma same_actions_add (st1 st2 : State) (e1 e2 : list event) :
  same_actions st1 st2 -> actions e1 = actions e2 -> same_actions (add st1 e1) (add st2 e2).
Proof.
  intros [H1 H2] H. split; cbn [add trace stdin_rest]; [|exact H2].
  now rewrite !actions_app, H1, H.
Qed.

Lemma alike_ret {A : Type} (a : A) : alike (ret a) (ret a).
Proof. intros w st1 st2 H. now split. Qed.

Lemma alike_sys_exit {A : Type} (c : Z) : alike (@sys_exit A c) (sys_exit c).
Proof. intros w st1 st2 H. now split. Qed.

Lemma alike_raise {A : Type} (e : string) : alike (@raise A e) (raise e).
Proof. intros w st1 st2 H. now split. Qed.

Lemma alike_ask : alike ask ask.
Proof. intros w st1 st2 H. now split. Qed.

Lemma alike_emit (e : event) : alike (emit e) (emit e).
Proof.
  intros w st1 st2 H. split; [reflexivity|]. now apply (same_actions_add st1 st2 [e] [e]).
Qed.

Lemma alike_write (s : string) : alike (write s) (write s).
Proof. apply alike_emit. Qed.

Lemma alike_print (s : string) : alike (print s) (print s).
Proof. apply alike_emit. Qed.

Lemma alike_stdin_read : alike stdin_read stdin_read.
Proof.
  intros w st1 st2 [H1 H2]. unfold stdin_read. cbn [fst snd]. rewrite H2.
  split; [reflexivity|]. now split.
Qed.

Lemma alike_stdin_readline : alike stdin_readline stdin_readline.
Proof.
  intros w st1 st2 [H1 H2]. unfold stdin_readline. rewrite H2.
  destruct (split_line (stdin_rest st2)) as [line rest]. cbn [fst snd].
  split; [reflexivity|]. split; cbn [trace stdin_rest]; [|reflexivity].
  now rewrite !actions_app, H1.
Qed.

Lemma alike_send (rq : http_request) : alike (send rq) (send rq).
Proof.
  intros w st1 st2 H. unfold send, bind, ask, get_state, emit, ret. cbn [fst snd].
  rewrite (same_actions_requests st1 st2 H). split; [reflexivity|].
  now apply (same_actions_add st1 st2 [Http rq] [Http rq]).
Qed.

Lemma alike_bind {A B : Type} (m1 m2 : M A) (k1 k2 : A -> M B) :
  alike m1 m2 -> (forall a, alike (k1 a) (k2 a)) -> alike (bind m1 k1) (bind m2 k2).
Proof.
  intros Hm Hk w st1 st2 H. unfold bind. destruct (Hm w st1 st2 H) as [E S].
  destruct (m1 w st1) as [r1 s1], (m2 w st2) as [r2 s2]. simpl in E, S. subst r2.
  destruct r1 as [a|c|e]; [now apply Hk | now split | now split].
Qed.

Lemma alike_if {A : Type} (b : bool) (m1 m2 n1 n2 : M A) :
  alike m1 n1 -> alike m2 n2 -> alike (if b then m1 else m2) (if b then n1 else n2).
Proof. now destruct b. Qed.

Lemma alike_get (v : value) (key : string) (default : value) :
  alike (get v key default) (get v key default).
Proof. destruct v; first [apply alike_ret | apply alike_raise]. Qed.

Lemma alike_item0 (v : value) : alike (item0 v) (item0 v).
Proof.
  destruct v as [| | |s|l|]; try apply alike_raise.
  - destruct s; [apply alike_raise | apply alike_ret].
  - destruct l; [apply alike_raise | apply alike_ret].
Qed.

(** The echo of debug mode is output and nothing else. *)
Lemma alike_print_debug_curl (method url : string) (headers : list (string * string))
    (auth : string * string) (payload : option value) :
  alike (print_debug_curl method url headers auth payload) (ret tt).
Proof.
  intros w st1 st2 H. unfold print_debug_curl, bind, print, write, emit, ret.
  cbn [fst snd]. split; [reflexivity|].
  destruct H as [H1 H2]. split; cbn [trace stdin_rest]; [|exact H2].
  rewrite !actions_app. cbn [actions]. now rewrite !app_nil_r.
Qed.

Lemma alike_sym {A : Type} (m1 m2 : M A) : alike m1 m2 -> alike m2 m1.
Proof.
  intros Hm w st1 st2 [H1 H2].
  destruct (Hm w st2 st1) as [E [S1 S2]]; [now split|]. now repeat split.
Qed.

Create HintDb alike.

#[local] Hint Resolve alike_ret alike_sys_exit alike_raise alike_ask alike_emit alike_write
  alike_print alike_stdin_read alike_stdin_readline alike_send alike_get alike_item0
  : alike.

Ltac alike_steps :=
  repeat first
    [ solve [ auto with alike ]
    | apply alike_bind; [ | intros ? ]
    | apply alike_if
    | match goal with
      | |- alike (match ?x with _ => _ end) (match ?x with _ => _ end) => destruct x
      end ].

Lemma alike_get_config : alike get_config get_config.
Proof. unfold get_config. alike_steps. Qed.

#[local] Hint Resolve alike_get_config : alike.

Lemma alike_poznote_request (method endpoint : string) (payload : option value)
    (params : option (list (string * string))) (b1 b2 : bool) :
  alike (poznote_request method endpoint payload params b1)
        (poznote_request method endpoint payload params b2).
Proof.
  unfold poznote_request.
  apply alike_bind; [auto with alike | intros cfg].
  apply alike_bind; [|intros ?; alike_steps].
  destruct b1, b2.
  - unfold print_debug_curl. alike_steps.
  - apply alike_print_debug_curl.
  - apply alike_sym, alike_print_debug_curl.
  - apply alike_ret.
Qed.

#[local] Hint Resolve alike_poznote_request : alike.

Lemma alike_copy_to_clipboard (text : string) :
  alike (copy_to_clipboard text) (copy_to_clipboard text).
Proof. unfold copy_to_clipboard. alike_steps. Qed.

Lemma alike_input (prompt : string) : alike (input prompt) (input prompt).
Proof. unfold input. alike_steps. Qed.

#[local] Hint Resolve alike_copy_to_clipboard alike_input : alike.

Lemma alike_list_last_note (b1 b2 : bool) : alike (list_last_note b1) (list_last_note b2).
Proof. unfold list_last_note. alike_steps. Qed.

Lemma alike_search_notes (query : string) (b1 b2 : bool) :
  alike (search_notes query b1) (search_notes query b2).
Proof. unfold search_notes. alike_steps. Qed.

Lemma alike_delete_note (note_id : value) (silent b1 b2 : bool) :
  alike (delete_note note_id silent b1) (delete_note note_id silent b2).
Proof. unfold delete_note. alike_steps. Qed.


Lemma alike_confirm_burn : alike confirm_burn confirm_burn.
Proof. unfold confirm_burn. alike_steps. Qed.

Lemma alike_read_content (from_clipboard : bool) :
  alike (read_content from_clipboard) (read_content from_clipboard).
Proof. unfold read_content, get_clipboard_text. alike_steps. Qed.

#[local] Hint Resolve alike_delete_note alike_confirm_burn alike_read_content : alike.




(** Debug mode at one request: the request is the one sent without it, and
    the echo comes before it. *)
Lemma debug_echo_precedes_request (w : World) (cfg : Config) (st : State)
    (method endpoint : string) (payload : option value)
    (params : option (list (string * string))) :
  loads w cfg ->
  let rq := build_request cfg method endpoint payload params in
  exists tail,
    trace (snd (poznote_request method endpoint payload params false w st))
    = (trace st ++ Http rq :: tail)%list
    /\ trace (snd (poznote_request method endpoint payload params true w st))
       = (trace st ++ echo true rq ++ Http rq :: tail)%list
    /\ fst (poznote_request method endpoint payload params true w st)
       = fst (poznote_request method endpoint payload params false w st).
Proof.
  intros L rq. rewrite !(poznote_request_run w cfg _ _ _ _ _ _ L). fold rq.
  unfold answer. destruct (server w (requests (trace st)) rq) as [e|[body|]];
    eexists; cbn [fst snd add trace echo app]; (split; [reflexivity|]); split; reflexivity.
Qed.

Example debug_on_the_sample_service :
  output (trace (snd (run (main (set_debug true (Sample.with_delete "5"))) Sample.piped)))
  = [PyStr.nl ++ "--- DEBUG: CURL COMMAND ---" ++ PyStr.nl;
     "curl -X DELETE 'https://notes.example/api/v1/notes/5' -u 'alice:secret' "
     ++ "-H 'X-User-ID: 1' -H 'Content-Type: application/json'" ++ PyStr.nl;
     "---------------------------" ++ PyStr.nl ++ PyStr.nl;
     "Success: Note 5 deleted." ++ PyStr.nl]
  /\ requests (trace (snd (run (main (set_debug true (Sample.with_delete "5"))) Sample.piped)))
     = [delete_request (Sample.config true) (JStr "5")].
Proof. split; reflexivity. Qed.

(** * More properties of the script *)

(** ** Exit statuses *)

Lemma exits_within_bind_ask {B : Type} (l : list Z) (w : World) (k : World -> M B) :
  exits_within l w (k w) -> exits_within l w (bind ask k).
Proof. intros H st c. apply H. Qed.

Lemma exits_within_item0 (l : list Z) (w : World) (v : value) : exits_within l w (item0 v).
Proof.
  destruct v as [| | |s|x|]; try apply exits_within_raise.
  - destruct s; [apply exits_within_raise | apply exits_within_ret].
  - destruct x; [apply exits_within_raise | apply exits_within_ret].
Qed.

#[local] Hint Resolve exits_within_item0 : exits.

(** As [exits_steps], with the world that [ask] returns kept, and what is
    known of standard input used. *)
Ltac exits_steps_in_world :=
  repeat first
    [ solve [ eauto with exits ]
    | match goal with
      | |- exits_within _ _ (bind ask _) => apply exits_within_bind_ask; cbv beta
      | |- exits_within _ _ (bind _ _) => apply exits_within_bind; [ | intros ? ]
      end
    | match goal with
      | H : stdin_isatty ?w = _ |- context [stdin_isatty ?w] => rewrite H
      end
    | apply exits_within_if
    | match goal with
      | |- exits_within _ _ (match ?x with _ => _ end) => destruct x
      end ].

Lemma read_actions_exit_codes (w : World) (debug : bool) (query : string) (note_id : value)
    (silent : bool) :
  exits_within [0; 12; 13] w (list_last_note debug)
  /\ exits_within [0; 12; 13] w (search_notes query debug)
  /\ exits_within [0; 12; 13] w (delete_note note_id silent debug).
Proof.
  unfold list_last_note, search_notes, delete_note, copy_to_clipboard,
    poznote_request, print_debug_curl, send, get_config.
  repeat split; exits_steps_in_world.
Qed.

Lemma piped_exit_codes (w : World) (args : Args) :
  stdin_isatty w = false -> exits_within [0; 12; 13] w (main args).
Proof.
  intros H.
  unfold main, list_last_note, search_notes, update_note, post_to_poznote, read_content,
    get_clipboard_text, copy_to_clipboard, confirm_burn, delete_note, input,
    poznote_request, print_debug_curl, send, get_config.
  exits_steps_in_world.
Qed.

Lemma clipboard_post_exit_codes (w : World) (tags : option string)
    (show_delete show_update burn debug : bool) :
  exits_within [0; 12; 13] w (post_to_poznote tags true show_delete show_update burn debug).
Proof.
  unfold post_to_poznote, read_content,
    get_clipboard_text, copy_to_clipboard, confirm_burn, delete_note, input,
    poznote_request, print_debug_curl, send, get_config.
  exits_steps_in_world.
Qed.

Lemma not_in_0_12_13 : ~ In 11 [0; 12; 13].
Proof. simpl. intros [H|[H|[H|[]]]]; discriminate H. Qed.

(** X2: the process ends with status 11 only when standard input is a
    terminal and the action is one that reads it: an update, or a post
    that does not take its content from the clipboard.  Listing, searching
    and deleting never end with 11. *)
Theorem exit_11_needs_a_terminal (w : World) (args : Args) :
  fst (run (main args) w) = Exit 11 ->
  stdin_isatty w = true
  /\ last args = false /\ opt_truthy (search args) = false
  /\ opt_truthy (delete args) = false
  /\ (opt_truthy (update args) = true \/ clipboard args = false).
Proof.
  intros H. split.
  - destruct (stdin_isatty w) eqn:T; [reflexivity|].
    apply (piped_exit_codes w args T) in H. now apply not_in_0_12_13 in H.
  - unfold run, main, bind in H.
    destruct (get_config w (init w)) as [[cfg|c|e] st] eqn:C.
    + destruct (any_gated args && negb (adv_feat cfg)); [discriminate H|].
      destruct (read_actions_exit_codes w (debug args) (given (search args))
                  (JStr (given (delete args))) false) as (E1 & E2 & E3).
      destruct (last args).
      { apply E1 in H. now apply not_in_0_12_13 in H. }
      destruct (opt_truthy (search args)).
      { apply E2 in H. now apply not_in_0_12_13 in H. }
      destruct (opt_truthy (delete args)).
      { apply E3 in H. now apply not_in_0_12_13 in H. }
      repeat split. destruct (opt_truthy (update args)); [now left|right].
      destruct (clipboard args); [|reflexivity].
      apply clipboard_post_exit_codes in H. now apply not_in_0_12_13 in H.
    + cbn [fst] in H. injection H as ->.
      destruct (configured w) eqn:K.
      * destruct (get_config_configured w (init w) K) as [cfg' Hc]. rewrite Hc in C.
        discriminate C.
      * rewrite (get_config_unconfigured w _ K) in C. discriminate C.
    + discriminate H.
Qed.

Lemma exit_11_needs_a_terminal_witness :
  stdin_isatty Sample.interactive = true
  /\ last Sample.plain = false /\ opt_truthy (search Sample.plain) = false
  /\ opt_truthy (delete Sample.plain) = false
  /\ (opt_truthy (update Sample.plain) = true \/ clipboard Sample.plain = false).
Proof.
  apply (exit_11_needs_a_terminal Sample.interactive Sample.plain). reflexivity.
Defined.



(** ** Steps that send nothing *)

Lemma silent_ret {A : Type} (a : A) : silent (ret a).
Proof. intros w st. now split. Qed.

Lemma silent_raise {A : Type} (e : string) : silent (@raise A e).
Proof. intros w st. now split. Qed.

Lemma silent_sys_exit {A : Type} (c : Z) : c <> 13 -> silent (@sys_exit A c).
Proof. intros H w st. split; [reflexivity|]. cbn. congruence. Qed.

Lemma silent_ask : silent ask.
Proof. intros w st. now split. Qed.

Lemma silent_stdin_read : silent stdin_read.
Proof. intros w st. now split. Qed.

Lemma silent_stdin_readline : silent stdin_readline.
Proof.
  intros w st. unfold stdin_readline. destruct (split_line (stdin_rest st)) as [l r].
  cbn [fst snd trace]. rewrite requests_app. cbn. now rewrite app_nil_r.
Qed.

Lemma silent_write (s : string) : silent (write s).
Proof.
  intros w st. cbn [write emit fst snd trace]. rewrite requests_app. cbn.
  now rewrite app_nil_r.
Qed.

Lemma silent_print (s : string) : silent (print s).
Proof. apply silent_write. Qed.

Lemma silent_emit_copy (argv : list string) (text : string) : silent (emit (ClipCopy argv text)).
Proof.
  intros w st. cbn [emit fst snd trace]. rewrite requests_app. cbn. now rewrite app_nil_r.
Qed.

Lemma silent_emit_tty : silent (emit TtyRead).
Proof.
  intros w st. cbn [emit fst snd trace]. rewrite requests_app. cbn. now rewrite app_nil_r.
Qed.

Lemma silent_get (v : value) (key : string) (default : value) : silent (get v key default).
Proof. destruct v; first [apply silent_ret | apply silent_raise]. Qed.

Lemma silent_item0 (v : value) : silent (item0 v).
Proof.
  destruct v as [| | |s|l|]; try apply silent_raise.
  - destruct s; [apply silent_raise | apply silent_ret].
  - destruct l; [apply silent_raise | apply silent_ret].
Qed.

Lemma silent_bind {A B : Type} (m : M A) (k : A -> M B) :
  silent m -> (forall a, silent (k a)) -> silent (bind m k).
Proof.
  intros Hm Hk w st. unfold bind. destruct (Hm w st) as [R E].
  destruct (m w st) as [[a|c|e] st']; cbn [fst snd] in *.
  - destruct (Hk a w st') as [R' E']. split; [congruence | exact E'].
  - split; [exact R | intros [= ->]; now apply E].
  - split; [exact R | discriminate].
Qed.

Lemma silent_if {A : Type} (b : bool) (m1 m2 : M A) :
  silent m1 -> silent m2 -> silent (if b then m1 else m2).
Proof. now destruct b. Qed.

Create HintDb silent.

#[local] Hint Resolve silent_ret silent_raise silent_ask silent_stdin_read
  silent_stdin_readline silent_write silent_print silent_emit_copy silent_emit_tty
  silent_get silent_item0 : silent.

#[local] Hint Extern 1 (silent (sys_exit _)) =>
  apply silent_sys_exit; discriminate : silent.

Ltac silent_steps :=
  repeat first
    [ solve [ auto with silent ]
    | match goal with
      | |- silent (bind _ _) => apply silent_bind; [ | intros ? ]
      | |- silent (if _ then _ else _) => apply silent_if
      | |- silent (match ?x with _ => _ end) => destruct x
      end ].

Lemma silent_get_config : silent get_config.
Proof. unfold get_config. silent_steps. Qed.

Lemma silent_print_debug_curl (method url : string) (headers : list (string * string))
    (auth : string * string) (payload : option value) :
  silent (print_debug_curl method url headers auth payload).
Proof. unfold print_debug_curl. silent_steps. Qed.

Lemma silent_copy_to_clipboard (text : string) : silent (copy_to_clipboard text).
Proof. unfold copy_to_clipboard. silent_steps. Qed.

Lemma silent_input (prompt : string) : silent (input prompt).
Proof. unfold input. silent_steps. Qed.

#[local] Hint Resolve silent_get_config silent_print_debug_curl silent_copy_to_clipboard
  silent_input : silent.

Lemma silent_print_burn_banner (workspace : string) : silent (print_burn_banner workspace).
Proof.
  intros w st. unfold print_burn_banner, bind, ask.
  destruct (stdout_takes_fire w); cbn [emit raise fst snd trace].
  - rewrite requests_app. cbn. now rewrite app_nil_r.
  - now split.
Qed.

#[local] Hint Resolve silent_print_burn_banner : silent.

Lemma silent_confirm_burn : silent confirm_burn.
Proof. unfold confirm_burn. silent_steps. Qed.

Lemma silent_read_content (from_clipboard : bool) : silent (read_content from_clipboard).
Proof. unfold read_content, get_clipboard_text. silent_steps. Qed.

#[local] Hint Resolve silent_confirm_burn silent_read_content : silent.

(** ** How many requests a run sends *)

Lemma sends_at_most_silent {A : Type} (n : nat) (m : M A) : silent m -> sends_at_most n m.
Proof. intros H w st. destruct (H w st) as [R _]. rewrite R. lia. Qed.

Lemma sends_at_most_bind_silent {A B : Type} (n : nat) (m : M A) (k : A -> M B) :
  silent m -> (forall a, sends_at_most n (k a)) -> sends_at_most n (bind m k).
Proof.
  intros Hm Hk w st. unfold bind. destruct (Hm w st) as [R _].
  destruct (m w st) as [[a|c|e] st']; cbn [fst snd] in *.
  - specialize (Hk a w st'). rewrite R in Hk. exact Hk.
  - rewrite R. lia.
  - rewrite R. lia.
Qed.

Lemma sends_at_most_bind_one {A B : Type} (n : nat) (m : M A) (k : A -> M B) :
  sends_at_most 1 m -> (forall a, sends_at_most n (k a)) -> sends_at_most (S n) (bind m k).
Proof.
  intros Hm Hk w st. unfold bind. specialize (Hm w st).
  destruct (m w st) as [[a|c|e] st']; cbn [fst snd] in *.
  - specialize (Hk a w st'). lia.
  - lia.
  - lia.
Qed.

Lemma sends_at_most_if {A : Type} (n : nat) (b : bool) (m1 m2 : M A) :
  sends_at_most n m1 -> sends_at_most n m2 -> sends_at_most n (if b then m1 else m2).
Proof. now destruct b. Qed.

Lemma sends_at_most_S {A : Type} (n : nat) (m : M A) :
  sends_at_most n m -> sends_at_most (S n) m.
Proof. intros H w st. specialize (H w st). lia. Qed.

Lemma sends_at_most_sys_exit {A : Type} (n : nat) (c : Z) : sends_at_most n (@sys_exit A c).
Proof. intros w st. cbn. lia. Qed.

Lemma sends_at_most_send (rq : http_request) : sends_at_most 1 (send rq).
Proof.
  intros w st. cbn [send bind ask get_state emit ret fst snd trace].
  rewrite requests_app, length_app. cbn. lia.
Qed.

Lemma sends_at_most_poznote_request (method endpoint : string) (payload : option value)
    (params : option (list (string * string))) (debug : bool) :
  sends_at_most 1 (poznote_request method endpoint payload params debug).
Proof.
  unfold poznote_request.
  apply sends_at_most_bind_silent; [auto with silent | intros cfg].
  apply sends_at_most_bind_silent; [silent_steps | intros _].
  replace 1%nat with (1 + 0)%nat by reflexivity.
  apply sends_at_most_bind_one; [apply sends_at_most_send | intros r].
  destruct r as [e|[body|]]; try solve [apply sends_at_most_silent; silent_steps].
  apply sends_at_most_bind_silent; [auto with silent | intros _].
  apply sends_at_most_sys_exit.
Qed.

Create HintDb sends.

#[local] Hint Resolve sends_at_most_poznote_request sends_at_most_sys_exit : sends.

#[local] Hint Extern 2 (sends_at_most _ _) =>
  apply sends_at_most_silent; solve [silent_steps] : sends.

Ltac sends_steps :=
  repeat first
    [ solve [ auto with sends ]
    | match goal with
      | |- sends_at_most _ (bind (poznote_request _ _ _ _ _) _) =>
          apply sends_at_most_bind_one; [ apply sends_at_most_poznote_request | intros ? ]
      | |- sends_at_most _ (bind _ _) =>
          apply sends_at_most_bind_silent; [ solve [silent_steps] | intros ? ]
      | |- sends_at_most _ (if _ then _ else _) => apply sends_at_most_if
      | |- sends_at_most _ (match ?x with _ => _ end) => destruct x
      | |- sends_at_most (S _) _ => apply sends_at_most_S
      end ].

Lemma sends_at_most_delete_note (note_id : value) (silent debug : bool) :
  sends_at_most 1 (delete_note note_id silent debug).
Proof. unfold delete_note. sends_steps. Qed.

#[local] Hint Resolve sends_at_most_delete_note : sends.

Lemma sends_at_most_main (args : Args) : sends_at_most 2 (main args).
Proof.
  unfold main, list_last_note, search_notes, update_note, post_to_poznote.
  sends_steps.
Qed.

(** X5: no invocation sends more than two requests. *)
Theorem run_sends_at_most_two_requests (w : World) (args : Args) :
  (length (requests (trace (snd (run (main args) w)))) <= 2)%nat.
Proof. apply (sends_at_most_main args w (init w)). Qed.


(** ** What every request carries *)

Lemma keeps_requests_silent {A : Type} (P : http_request -> Prop) (w : World) (m : M A) :
  silent m -> keeps_requests P w m.
Proof. intros H st F. destruct (H w st) as [R _]. now rewrite R. Qed.

Lemma keeps_requests_bind {A B : Type} (P : http_request -> Prop) (w : World)
    (m : M A) (k : A -> M B) :
  keeps_requests P w m -> (forall a, keeps_requests P w (k a)) ->
  keeps_requests P w (bind m k).
Proof.
  intros Hm Hk st F. unfold bind. specialize (Hm st F).
  destruct (m w st) as [[a|c|e] st']; cbn [fst snd] in *; [now apply Hk | exact Hm | exact Hm].
Qed.

Lemma keeps_requests_if {A : Type} (P : http_request -> Prop) (w : World) (b : bool)
    (m1 m2 : M A) :
  keeps_requests P w m1 -> keeps_requests P w m2 ->
  keeps_requests P w (if b then m1 else m2).
Proof. now destruct b. Qed.

Lemma answer_requests (w : World) (st : State) (debug : bool) (rq : http_request) :
  requests (trace (snd (answer w st debug rq))) = (requests (trace st) ++ [rq])%list.
Proof.
  unfold answer. destruct (server w (requests (trace st)) rq) as [e|[body|]];
    cbn [snd add trace]; now rewrite !requests_app, requests_echo.
Qed.

Lemma keeps_requests_poznote_request (w : World) (cfg : Config) (method endpoint : string)
    (payload : option value) (params : option (list (string * string))) (debug : bool) :
  loads w cfg ->
  In method ["GET"; "POST"; "PATCH"; "DELETE"] ->
  (exists rest, endpoint = "/api/v1/notes" ++ rest) ->
  keeps_requests (by_the_book cfg) w (poznote_request method endpoint payload params debug).
Proof.
  intros L Hm [rest ->] st F. rewrite (poznote_request_run w cfg _ _ _ _ _ _ L).
  rewrite answer_requests. apply Forall_app. split; [exact F|].
  constructor; [|constructor]. unfold by_the_book, build_request.
  cbn [rq_method rq_url rq_auth rq_headers rq_timeout].
  split; [exact Hm|]. split; [now exists rest|]. now repeat split.
Qed.

Ltac keeps_steps L :=
  repeat first
    [ solve [ apply keeps_requests_silent; silent_steps ]
    | match goal with
      | |- keeps_requests _ _ (bind _ _) => apply keeps_requests_bind; [ | intros ? ]
      | |- keeps_requests _ _ (if _ then _ else _) => apply keeps_requests_if
      | |- keeps_requests _ _ (poznote_request _ _ _ _ _) =>
          apply keeps_requests_poznote_request;
            [ exact L | simpl; tauto | eexists; reflexivity ]
      | |- keeps_requests _ _ (match ?x with _ => _ end) => destruct x
      end ].

Lemma keeps_requests_main (w : World) (cfg : Config) (args : Args) :
  loads w cfg -> keeps_requests (by_the_book cfg) w (main args).
Proof.
  intros L.
  unfold main, list_last_note, search_notes, update_note, post_to_poznote, delete_note.
  keeps_steps L.
Qed.

(** X6: every request of a run is made by the book of the configuration:
    its method is GET, POST, PATCH or DELETE, its address lies below
    [/api/v1/notes] of the configured server, and it carries the configured
    user and password, the headers [X-User-ID] and [Content-Type], the
    latter also when there is no body, and the timeout of ten seconds. *)
Theorem every_request_is_by_the_book (w : World) (cfg : Config) (args : Args) :
  loads w cfg ->
  Forall (by_the_book cfg) (requests (trace (snd (run (main args) w)))).
Proof. intros L. apply (keeps_requests_main w cfg args L (init w)). constructor. Qed.

Lemma every_request_is_by_the_book_witness :
  Forall (by_the_book (Sample.config true))
    (requests (trace (snd (run (main Sample.with_burn) Sample.piped)))).
Proof.
  apply (every_request_is_by_the_book Sample.piped (Sample.config true) Sample.with_burn).
  reflexivity.
Defined.

(** ** A failed request ends the run *)










Example offline_post_ends_with_13 :
  fst (run (main Sample.plain) Cases.offline) = Exit 13
  /\ map rq_method (requests (trace (snd (run (main Sample.plain) Cases.offline)))) = ["POST"]
  /\ List.last (output (trace (snd (run (main Sample.plain) Cases.offline)))) EmptyString
     = "Error: API Request failed: 503 Service Unavailable" ++ PyStr.nl.
Proof. repeat split. Qed.

(** ** Delete and update *)








(** ** A read that finds a note *)

Lemma get_field (kvs : list (string * value)) (key : string) (default : value)
    (w : World) (st : State) :
  get (JObj kvs) key default w st = (Ret (field kvs key default), st).
Proof. reflexivity. Qed.

Lemma copy_to_clipboard_run (text : string) (w : World) (st : State) :
  copy_to_clipboard text w st = (Ret tt, add st (copy_events w text)).
Proof.
  unfold copy_events, copy_to_clipboard, bind, ask.
  destruct (which w "xclip"); [reflexivity|].
  destruct (which w "wl-copy"); [reflexivity|].
  unfold ret. now rewrite add_nil.
Qed.

Lemma copy_events_quiet (w : World) (text : string) :
  requests (copy_events w text) = [] /\ output (copy_events w text) = [].
Proof.
  unfold copy_events, copy_to_clipboard, bind, ask.
  destruct (which w "xclip"); [now split|].
  destruct (which w "wl-copy"); now split.
Qed.

Lemma output_echo_requests (debug : bool) (rq : http_request) :
  output (echo debug rq ++ [Http rq]) = output (echo debug rq).
Proof. rewrite output_app. cbn [output]. now rewrite app_nil_r. Qed.

Ltac trace_requests :=
  repeat (rewrite ?requests_app, ?requests_echo; cbn [requests app]).




(** ** A post and the answer to it *)

(** A post with content whose request is answered goes on from the answer. *)
Lemma post_reaches_answer (w : World) (cfg : Config) (args : Args) (input_data : string)
    (data : value) :
  loads w cfg -> any_gated args = false ->
  fst (run (read_content (clipboard args)) w) = Ret (Some input_data) ->
  input_data <> EmptyString ->
  server w [] (post_request w cfg input_data (tags args)) = Response (Some data) ->
  run (main args) w
  = after_post cfg w (d args) (u args) (burn args) (debug args) data
      w (posted w cfg args input_data).
Proof.
  intros L G R E S. unfold run in *. rewrite (main_post w cfg args _ L G).
  change (post_to_poznote (tags args) (clipboard args) (d args) (u args) (burn args)
            (debug args))
    with (bind get_config (fun cfg =>
          bind (read_content (clipboard args)) (fun content =>
          if negb (opt_truthy content) then sys_exit 0
          else match content with
               | None => sys_exit 0
               | Some input_data =>
                   bind ask (fun w =>
                   bind (poznote_request "POST" "/api/v1/notes"
                           (Some (JObj (build_payload (clock w) input_data (workspace cfg)
                                          (tags args)))) None (debug args))
                        (after_post cfg w (d args) (u args) (burn args) (debug args)))
               end))).
  erewrite bind_of_ret by apply (loads_everywhere w cfg L).
  pose proof (read_content_state _ _ _ _ R) as Q.
  unfold bind at 1. destruct (read_content (clipboard args) w (init w)) as [r st1].
  cbn [fst snd] in R, Q. subst r.
  assert (T : opt_truthy (Some input_data) = true)
    by (destruct input_data; [congruence|reflexivity]).
  rewrite T. cbn [negb].
  unfold posted. destruct (clipboard args); subst st1;
    (erewrite bind_of_ret by apply ask_run);
    (erewrite bind_of_ret
       by (rewrite (poznote_request_run w cfg _ _ _ _ _ _ L); unfold answer;
           cbn [init trace requests];
           fold (post_request w cfg input_data (tags args)); rewrite S; reflexivity));
    reflexivity.
Qed.

Lemma posted_requests (w : World) (cfg : Config) (args : Args) (input_data : string) :
  requests (trace (posted w cfg args input_data))
  = [post_request w cfg input_data (tags args)]
  /\ output (trace (posted w cfg args input_data))
     = output (echo (debug args) (post_request w cfg input_data (tags args))).
Proof.
  unfold posted. cbn [trace]. split.
  - now rewrite requests_app, requests_echo.
  - apply output_echo_requests.
Qed.





Lemma confirm_burn_at_end_of_input (w : World) (st : State) :
  dev_tty w <> TtyReadable -> stdin_rest st = EmptyString ->
  exists evs,
    confirm_burn w st = (Uncaught "EOFError", add st evs) /\ requests evs = [].
Proof.
  intros D Z. unfold confirm_burn, input, bind, ask, write, emit, stdin_readline, raise.
  destruct (dev_tty w); [congruence| |]; cbn [trace stdin_rest]; rewrite Z;
    cbn [split_line]; rewrite <- ?app_assoc; eexists; unfold add; rewrite Z;
    (split; [reflexivity|]); reflexivity.
Qed.

(** X13: in burn mode, a post of piped content whose note id counts as true
    cannot get its confirmation when the terminal device cannot be opened
    or read: once the banner is printed, on a standard output that can take
    it, the prompt that stands in for the device finds standard input at
    its end, and the run ends with an [EOFError] that nothing catches,
    after the post and before any DELETE. *)
Theorem burn_of_piped_content_needs_the_terminal (w : World) (cfg : Config) (args : Args)
    (input_data : string) (data note : list (string * value)) :
  loads w cfg -> any_gated args = false -> burn args = true -> clipboard args = false ->
  fst (run (read_content (clipboard args)) w) = Ret (Some input_data) ->
  input_data <> EmptyString ->
  server w [] (post_request w cfg input_data (tags args)) = Response (Some (JObj data)) ->
  field data "note" (JObj []) = JObj note ->
  Py.truthy (field note "id" JNull) = true ->
  dev_tty w <> TtyReadable ->
  stdout_takes_fire w = true ->
  exists st,
    run (main args) w = (Uncaught "EOFError", st)
    /\ requests (trace st) = [post_request w cfg input_data (tags args)].
Proof.
  intros L G B C R E S N T D F. rewrite (post_reaches_answer w cfg args input_data _ L G R E S).
  destruct (posted_requests w cfg args input_data) as [P1 _].
  unfold after_post.
  erewrite bind_of_ret by (rewrite get_field, N; reflexivity).
  erewrite bind_of_ret by apply get_field.
  erewrite bind_of_ret by apply print_run.
  erewrite bind_of_ret by apply copy_to_clipboard_run.
  rewrite T, B, !andb_true_r. cbn [andb].
  destruct (copy_events_quiet w (note_url cfg (field note "id" JNull))) as [Q1 _].
  assert (Z : stdin_rest (posted w cfg args input_data) = EmptyString)
    by (unfold posted; cbn [stdin_rest]; now rewrite C).
  destruct (d args), (u args);
    repeat (erewrite bind_of_ret
              by first [apply print_run | apply ret_run
                       | apply (print_burn_banner_run _ _ _ F)]);
    rewrite !add_add;
    match goal with
    | |- context [bind confirm_burn ?k w ?s] =>
        destruct (confirm_burn_at_end_of_input w s D) as (evs & X & Y); [exact Z|]
    end;
    (erewrite bind_of_uncaught by exact X);
    (eexists; split; [reflexivity|]);
    cbn [add trace]; trace_requests; now rewrite P1, Q1, Y.
Qed.

Lemma burn_of_piped_content_needs_the_terminal_witness :
  exists st,
    run (main Sample.with_burn) Sample.detached = (Uncaught "EOFError", st)
    /\ requests (trace st)
       = [post_request Sample.detached (Sample.config true) "hello world" None].
Proof.
  apply (burn_of_piped_content_needs_the_terminal Sample.detached (Sample.config true)
           Sample.with_burn "hello world" [("note", JObj [("id", JInt 99)])]
           [("id", JInt 99)]); first [reflexivity | discriminate].
Defined.




(** ** The payload of a post *)







(** *** Trimmed content *)








(** ** A post that succeeds *)






(** ** Content from the clipboard *)


